(** * Widget factories of the STDM forms module ([ui/forms/widgets.py])

    A shallow embedding of the column widget registry, of the per-type
    widget factories and of [EntityValueFormatter], followed by the
    properties of the module's specification.

    Python objects are modelled by the small value type [pyval]; a method
    either returns or raises ([outcome]); the process-wide state (the class
    attribute [registered_factories], the database and the queries sent to
    it) is the record [world], threaded through the monad [M]. *)

From Stdlib Require Import ZArith String Ascii List DecimalString.
From stdpp Require Import gmap strings list fin_maps.

Local Open Scope Z_scope.
Local Open Scope string_scope.

(** ** Python values *)

(** A nullable text attribute of a database row: [None] or a unicode string. *)
Definition pyfield := option string.

(** Row objects of a lookup (value list) table; a multiple-select value is
    a list of them. *)
Record lookup_row := {
  lk_id : Z;
  lk_value : pyfield;
  lk_code : pyfield;
  lk_repr : string
}.

(** Any other Python object that is not a container (a float, a date, a
    datetime, a decimal), described by what the methods used in this module
    answer on it.  [obj_strftime] is [None] when the object has no
    [strftime] attribute, [obj_int] is the integer the object compares and
    hashes equal to (as [2.0] does to [2]), if any. *)
Record scalar := {
  obj_str : string;
  obj_unicode : string;
  obj_truth : bool;
  obj_strftime : option (string -> string);
  obj_int : option Z
}.

Inductive pyval :=
| VNone
| VBool (b : bool)
| VInt (z : Z)
| VStr (s : string)              (* a unicode object *)
| VList (l : list lookup_row)
| VObj (o : scalar).

Inductive exn :=
| TypeError
| AttributeError
| UnicodeEncodeError
| NotImplementedError
| WidgetException (msg : string).

Inductive outcome (A : Type) :=
| Ret (a : A)
| Raise (e : exn).
Arguments Ret {A} a.
Arguments Raise {A} e.

Definition field_val (f : pyfield) : pyval :=
  match f with Some s => VStr s | None => VNone end.

(** Python truth value, as tested by [if value:]. *)
Definition truthy (v : pyval) : bool :=
  match v with
  | VNone => false
  | VBool b => b
  | VInt z => negb (Z.eqb z 0)
  | VStr s => negb (String.eqb s "")
  | VList l => match l with [] => false | _ => true end
  | VObj o => obj_truth o
  end.

Definition field_truthy (f : pyfield) : bool := truthy (field_val f).

Definition str_of_Z (z : Z) : string := NilZero.string_of_int (Z.to_int z).

Definition str_of_bool (b : bool) : string := if b then "True" else "False".

Definition is_ascii (s : string) : bool :=
  forallb (fun c => Nat.ltb (nat_of_ascii c) 128) (list_ascii_of_string s).

Definition list_repr (l : list lookup_row) : string :=
  "[" +:+ String.concat ", " (map lk_repr l) +:+ "]".

(** [unicode(value)] *)
Definition py_unicode (v : pyval) : string :=
  match v with
  | VNone => "None"
  | VBool b => str_of_bool b
  | VInt z => str_of_Z z
  | VStr s => s
  | VList l => list_repr l
  | VObj o => obj_unicode o
  end.

(** [str(value)]: a unicode object is encoded with the ASCII codec. *)
Definition py_str (v : pyval) : outcome string :=
  match v with
  | VNone => Ret "None"
  | VBool b => Ret (str_of_bool b)
  | VInt z => Ret (str_of_Z z)
  | VStr s => if is_ascii s then Ret s else Raise UnicodeEncodeError
  | VList l => Ret (list_repr l)
  | VObj o => Ret (obj_str o)
  end.

(** [value.strftime(fmt)] *)
Definition py_strftime (v : pyval) (fmt : string) : outcome string :=
  match v with
  | VObj o =>
      match obj_strftime o with
      | Some f => Ret (f fmt)
      | None => Raise AttributeError
      end
  | _ => Raise AttributeError
  end.

(** [len(value)]; a scalar object has no length. *)
Definition py_len (v : pyval) : outcome nat :=
  match v with
  | VStr s => Ret (String.length s)
  | VList l => Ret (List.length l)
  | _ => Raise TypeError
  end.

(** The integer key a value is equal to when it is looked up in a dict
    whose keys are row ids; hashing a list raises. *)
Definition py_key (v : pyval) : outcome (option Z) :=
  match v with
  | VNone => Ret None
  | VBool b => Ret (Some (if b then 1 else 0))
  | VInt z => Ret (Some z)
  | VStr _ => Ret None
  | VList _ => Raise TypeError
  | VObj o => Ret (obj_int o)
  end.

(** [u'{0} ({1})'.format(name, code)] *)
Definition field_text (f : pyfield) : string :=
  match f with Some s => s | None => "None" end.

Definition format_name_code (name code : pyfield) : string :=
  field_text name +:+ " (" +:+ field_text code +:+ ")".

(** [sep.join(items)]: every item has to be a string. *)
Fixpoint all_strings (items : list pyfield) : option (list string) :=
  match items with
  | [] => Some []
  | Some s :: rest =>
      match all_strings rest with
      | Some ss => Some (s :: ss)
      | None => None
      end
  | None :: _ => None
  end.

Definition py_join (sep : string) (items : list pyfield) : outcome string :=
  match all_strings items with
  | Some ss => Ret (String.concat sep ss)
  | None => Raise TypeError
  end.

(** ** Columns, rows and the database *)

(** A column description of the entity configuration.  The column classes
    differ in the attributes they carry; the record holds those that the
    factories of this module read. *)
Record column := {
  TYPE_INFO : string;
  name : string;
  minimum : pyval;
  maximum : pyval;
  min_use_current_date : bool;
  max_use_current_date : bool;
  min_use_current_datetime : bool;
  max_use_current_datetime : bool;
  entity_relation_parent : option string;  (* [entity_relation.parent] *)
  value_list : string;
  administrative_spatial_unit : string     (* [entity.profile.administrative_spatial_unit] *)
}.

(** A row object of a parent (referenced) entity. *)
Record parent_row := {
  p_id : Z;
  p_attrs : list (string * pyval)
}.

(** A row object of the administrative spatial unit table. *)
Record aus_row := {
  aus_id : Z;
  aus_name : pyfield;
  aus_code : pyfield
}.

Record database := {
  parent_table : string -> list parent_row;
  aus_table : string -> list aus_row;
  lookup_table : string -> list lookup_row
}.

(** The queries sent through [queryObject()]: [filter().all()] and
    [filter(cls.id == value).first()]. *)
Inductive db_query :=
| QueryAll (entity : string)
| QueryFirst (entity : string) (value : pyval).

Definition is_first (q : db_query) : bool :=
  match q with QueryFirst _ _ => true | QueryAll _ => false end.

(** Modelled from the spec: the persistence layer ("retrieving referenced
    rows by id or in bulk") is not part of this module.  The row ids are
    integers; [cls.id == value] selects the rows whose id is the number
    [value], and no row when [value] is not a number. *)
Definition sql_id (value : pyval) : option Z :=
  match value with
  | VBool b => Some (if b then 1 else 0)
  | VInt z => Some z
  | VObj o => obj_int o
  | _ => None
  end.

Definition first_by_id {R : Type} (id_of : R -> Z) (rows : list R)
    (value : pyval) : option R :=
  match sql_id value with
  | Some z => List.find (fun r => Z.eqb (id_of r) z) rows
  | None => None
  end.

(** ** Classes of the module *)

Inductive factory_class :=
| ColumnWidgetRegistry
| VarCharWidgetFactory
| TextWidgetFactory
| DateWidgetFactory
| DateTimeWidgetFactory
| IntegerWidgetFactory
| DoubleWidgetFactory
| PercentWidgetFactory
| BooleanWidgetFactory
| RelatedEntityWidgetFactory
| AdministrativeUnitWidgetFactory
| LookupWidgetFactory
| MultipleSelectWidgetFactory.

(** The column classes imported from [stdm.data.configuration.columns]. *)
Inductive column_class :=
| VarCharColumn
| TextColumn
| DateColumn
| DateTimeColumn
| IntegerColumn
| DoubleColumn
| PercentColumn
| BooleanColumn
| ForeignKeyColumn
| AdministrativeSpatialUnitColumn
| LookupColumn
| MultipleSelectColumn.

(** An entry of [AdministrativeUnitWidgetFactory._aus_cache]: the list
    [[r.name, r.code]] stored by the constructor, or the row object stored
    by [format_column_value]. *)
Inductive aus_entry :=
| AusList (aus_n aus_c : pyfield)
| AusRow (r : aus_row).

(** The instance attributes set by the constructors besides [_column]. *)
Inductive attrs :=
| NoAttrs
| RelatedAttrs (_parent_entity_cache : gmap Z parent_row) (_p_entity : string)
| AusAttrs (_aus_cache : gmap Z aus_entry) (_aus : string)
| LookupAttrs (_lookups : gmap Z (pyfield * pyfield)).

Record instance := {
  inst_class : factory_class;
  _column : column;
  inst_attrs : attrs
}.

(** ** The world and the monad of methods *)

Record entity := {
  ent_name : string;
  ent_columns : gmap string column
}.

Record profile := {
  prf_entities : gmap string entity
}.

(** [registered_factories] is the class attribute of the registry, an
    ordered dict of which only the lookups are used. *)
Record world := {
  registered_factories : gmap string factory_class;
  db : database;
  db_log : list db_query;
  current_profile : option profile;
  today : pyval;          (* [date.today()] *)
  now : pyval             (* [datetime.today()] *)
}.

Definition M (A : Type) : Type := world -> outcome A * world.

#[export] Instance M_ret : MRet M := fun A a w => (Ret a, w).

#[export] Instance M_bind : MBind M := fun A B f m w =>
  match m w with
  | (Ret a, w') => f a w'
  | (Raise e, w') => (Raise e, w')
  end.

Definition raise {A : Type} (e : exn) : M A := fun w => (Raise e, w).

Definition lift {A : Type} (o : outcome A) : M A := fun w => (o, w).

Definition get_world : M world := fun w => (Ret w, w).

Definition set_registered_factories (r : gmap string factory_class) : M unit :=
  fun w => (Ret tt,
            {| registered_factories := r; db := db w; db_log := db_log w;
               current_profile := current_profile w;
               today := today w; now := now w |}).

(** The world after one more query has been sent to the database. *)
Definition with_query (w : world) (q : db_query) : world :=
  {| registered_factories := registered_factories w; db := db w;
     db_log := db_log w ++ [q];
     current_profile := current_profile w;
     today := today w; now := now w |}.

Definition send_query (q : db_query) : M unit :=
  fun w => (Ret tt, with_query w q).

(** [obj.queryObject().filter().all()] *)
Definition query_all {R : Type} (table : database -> string -> list R)
    (ent : string) : M (list R) :=
  _ ← send_query (QueryAll ent);
  w ← get_world;
  mret (table (db w) ent).

(** [obj.queryObject().filter(cls.id == value).first()] *)
Definition query_first {R : Type} (table : database -> string -> list R)
    (id_of : R -> Z) (ent : string) (value : pyval) : M (option R) :=
  _ ← send_query (QueryFirst ent value);
  w ← get_world;
  mret (first_by_id id_of (table (db w) ent) value).

(** ** What the module takes from its collaborators *)

Class Externals := {
  (** [QCoreApplication.translate(context, text)] *)
  translate : string -> string -> string;
  (** the [TYPE_INFO] constant of each column class *)
  column_TYPE_INFO : column_class -> string;
  (** [RelatedEntityLineEdit.process_display(column, record)] *)
  process_display : column -> parent_row -> pyval;
  (** [row[i]] on a row object of the administrative unit model *)
  row_getitem : aus_row -> Z -> outcome pyfield
}.

Section Widgets.
Context `{Externals}.

(** ** Class attributes *)

Definition COLUMN_TYPE_INFO (cls : factory_class) : string :=
  match cls with
  | ColumnWidgetRegistry => "NA"
  | VarCharWidgetFactory => column_TYPE_INFO VarCharColumn
  | TextWidgetFactory => column_TYPE_INFO TextColumn
  | DateWidgetFactory => column_TYPE_INFO DateColumn
  | DateTimeWidgetFactory => column_TYPE_INFO DateTimeColumn
  | IntegerWidgetFactory => column_TYPE_INFO IntegerColumn
  | DoubleWidgetFactory => column_TYPE_INFO DoubleColumn
  | PercentWidgetFactory => column_TYPE_INFO PercentColumn
  | BooleanWidgetFactory => column_TYPE_INFO BooleanColumn
  | RelatedEntityWidgetFactory => column_TYPE_INFO ForeignKeyColumn
  | AdministrativeUnitWidgetFactory =>
      column_TYPE_INFO AdministrativeSpatialUnitColumn
  | LookupWidgetFactory => column_TYPE_INFO LookupColumn
  | MultipleSelectWidgetFactory => column_TYPE_INFO MultipleSelectColumn
  end.

Definition _TYPE_PREFIX (cls : factory_class) : string :=
  match cls with
  | ColumnWidgetRegistry => ""
  | VarCharWidgetFactory => "le_"
  | TextWidgetFactory => "txt_"
  | DateWidgetFactory => "dt_"
  | DateTimeWidgetFactory => "dtt_"
  | IntegerWidgetFactory => "sb_"
  | DoubleWidgetFactory => "dsb_"
  | PercentWidgetFactory => "psb_"
  | BooleanWidgetFactory => "chb_"
  | RelatedEntityWidgetFactory => "rele_"
  | AdministrativeUnitWidgetFactory => "aule_"
  | LookupWidgetFactory => "cbo_"
  | MultipleSelectWidgetFactory => "mstv_"
  end.

Definition SEPARATOR : string := "; ".

(** ** Constructors *)

(** [ColumnWidgetRegistry.__init__] *)
Definition ColumnWidgetRegistry_init (cls : factory_class) (c : column)
    : M instance :=
  mret {| inst_class := cls; _column := c; inst_attrs := NoAttrs |}.

(** [RelatedEntityWidgetFactory.__init__] *)
Definition RelatedEntityWidgetFactory_init (cls : factory_class) (c : column)
    : M instance :=
  self ← ColumnWidgetRegistry_init cls c;
  match entity_relation_parent (_column self) with
  | None =>
      raise (WidgetException
        (translate "RelatedEntityWidgetFactory"
           ("The parent entity could not be determined. The input control "
            +:+ "will not be created.")))
  | Some p_entity =>
      res ← query_all parent_table p_entity;
      mret {| inst_class := cls; _column := c;
              inst_attrs :=
                RelatedAttrs
                  (foldl (fun cache r => <[p_id r := r]> cache) ∅ res)
                  p_entity |}
  end.

(** [AdministrativeUnitWidgetFactory.__init__] *)
Definition AdministrativeUnitWidgetFactory_init (cls : factory_class)
    (c : column) : M instance :=
  self ← ColumnWidgetRegistry_init cls c;
  let aus := administrative_spatial_unit (_column self) in
  res ← query_all aus_table aus;
  mret {| inst_class := cls; _column := c;
          inst_attrs :=
            AusAttrs
              (foldl (fun cache r =>
                        <[aus_id r := AusList (aus_name r) (aus_code r)]> cache)
                     ∅ res)
              aus |}.

(** [LookupWidgetFactory.__init__], inherited by the multiple select
    factory. *)
Definition LookupWidgetFactory_init (cls : factory_class) (c : column)
    : M instance :=
  self ← ColumnWidgetRegistry_init cls c;
  let lookup := value_list (_column self) in
  res ← query_all lookup_table lookup;
  mret {| inst_class := cls; _column := c;
          inst_attrs :=
            LookupAttrs
              (foldl (fun lookups r =>
                        <[lk_id r := (lk_value r, lk_code r)]> lookups)
                     ∅ res) |}.

(** [cls(column)]: the constructor found along the class hierarchy. *)
Definition new_instance (cls : factory_class) (c : column) : M instance :=
  match cls with
  | RelatedEntityWidgetFactory => RelatedEntityWidgetFactory_init cls c
  | AdministrativeUnitWidgetFactory =>
      AdministrativeUnitWidgetFactory_init cls c
  | LookupWidgetFactory | MultipleSelectWidgetFactory =>
      LookupWidgetFactory_init cls c
  | _ => ColumnWidgetRegistry_init cls c
  end.

(** ** Formatting of column values

    A formatting method returns the display value together with the
    instance, whose cache it may have extended. *)

Definition with_attrs (self : instance) (a : attrs) : instance :=
  {| inst_class := inst_class self; _column := _column self;
     inst_attrs := a |}.

(** [ColumnWidgetRegistry.format_column_value] *)
Definition ColumnWidgetRegistry_format_column_value (self : instance)
    (value : pyval) : M (pyval * instance) :=
  mret (VStr (py_unicode value), self).

Definition VarCharWidgetFactory_format_column_value (self : instance)
    (value : pyval) : M (pyval * instance) :=
  match value with
  | VNone => mret (VStr "", self)
  | _ => ColumnWidgetRegistry_format_column_value self value
  end.

Definition DateWidgetFactory_format_column_value (self : instance)
    (value : pyval) : M (pyval * instance) :=
  match value with
  | VNone => mret (VStr "", self)
  | _ => s ← lift (py_strftime value "%x"); mret (VStr s, self)
  end.

Definition DateTimeWidgetFactory_format_column_value (self : instance)
    (value : pyval) : M (pyval * instance) :=
  match value with
  | VNone => mret (VStr "", self)
  | _ => s ← lift (py_strftime value "%c"); mret (VStr s, self)
  end.

(** The method ends without a [return] when the value is [None]. *)
Definition IntegerWidgetFactory_format_column_value (self : instance)
    (value : pyval) : M (pyval * instance) :=
  match value with
  | VNone => mret (VNone, self)
  | _ => s ← lift (py_str value); mret (VStr s, self)
  end.

(** Inherited by the percent factory. *)
Definition DoubleWidgetFactory_format_column_value (self : instance)
    (value : pyval) : M (pyval * instance) :=
  match value with
  | VNone => mret (VStr "", self)
  | _ => s ← lift (py_str value); mret (VStr s, self)
  end.

Definition BooleanWidgetFactory_format_column_value (self : instance)
    (value : pyval) : M (pyval * instance) :=
  match value with
  | VNone => mret (VStr "", self)
  | _ =>
      if truthy value
      then mret (VStr (translate "EntityBrowser" "Yes"), self)
      else mret (VStr (translate "EntityBrowser" "No"), self)
  end.

(** [value in cache] followed by [cache[value]] *)
Definition cache_get {V : Type} (cache : gmap Z V) (value : pyval)
    : M (option V) :=
  k ← lift (py_key value);
  mret (match k with Some z => cache !! z | None => None end).

Definition RelatedEntityWidgetFactory_format_column_value (self : instance)
    (value : pyval) : M (pyval * instance) :=
  match inst_attrs self with
  | RelatedAttrs cache p_entity =>
      hit ← cache_get cache value;
      match hit with
      | Some rec => mret (process_display (_column self) rec, self)
      | None =>
          (* Query value *)
          found ← query_first parent_table p_id p_entity value;
          match found with
          | None => mret (VStr "", self)
          | Some rec =>
              (* Add to cache *)
              let self' :=
                with_attrs self
                  (RelatedAttrs (<[p_id rec := rec]> cache) p_entity) in
              mret (process_display (_column self') rec, self')
          end
      end
  | _ => raise AttributeError
  end.

(** [nc[i]] on a cache entry of the administrative unit factory *)
Definition aus_entry_getitem (nc : aus_entry) (i : Z) : outcome pyfield :=
  match nc with
  | AusList n c =>
      if Z.eqb i 0 then Ret n else if Z.eqb i 1 then Ret c else Raise TypeError
  | AusRow r => row_getitem r i
  end.

(** The tail of the method: [if code: name = u'{0} ({1})'.format(name, code)]
    and [return name]. *)
Definition name_with_code (name code : pyfield) : pyval :=
  if field_truthy code then VStr (format_name_code name code)
  else field_val name.

Definition AdministrativeUnitWidgetFactory_format_column_value
    (self : instance) (value : pyval) : M (pyval * instance) :=
  match inst_attrs self with
  | AusAttrs cache aus =>
      hit ← cache_get cache value;
      match hit with
      | Some nc =>
          name ← lift (aus_entry_getitem nc 0);
          code ← lift (aus_entry_getitem nc 1);
          mret (name_with_code name code, self)
      | None =>
          (* Query value *)
          found ← query_first aus_table aus_id aus value;
          match found with
          | None => mret (VStr "", self)
          | Some res =>
              (* Add result to the cache *)
              let self' :=
                with_attrs self
                  (AusAttrs (<[aus_id res := AusRow res]> cache) aus) in
              mret (name_with_code (aus_name res) (aus_code res), self')
          end
      end
  | _ => raise AttributeError
  end.

(** [LookupWidgetFactory.lookups] *)
Definition lookups (self : instance) : M (gmap Z (pyfield * pyfield)) :=
  match inst_attrs self with
  | LookupAttrs lks => mret lks
  | _ => raise AttributeError
  end.

(** [LookupWidgetFactory.code_value] *)
Definition code_value (self : instance) (id : pyval)
    : M (option (pyfield * pyfield)) :=
  lks ← lookups self;
  item ← cache_get lks id;
  match item with
  | Some item => mret (Some (item.1, item.2))
  | None => mret None
  end.

Definition LookupWidgetFactory_format_column_value (self : instance)
    (value : pyval) : M (pyval * instance) :=
  cd_val ← code_value self value;
  match cd_val with
  | None => mret (VStr "", self)
  | Some cd_val =>
      let lk_val := cd_val.1 in
      let lk_code := cd_val.2 in
      mret (name_with_code lk_val lk_code, self)
  end.

(** Iterating a non-empty string yields characters, which have no
    [value] attribute. *)
Definition MultipleSelectWidgetFactory_format_column_value (self : instance)
    (value : pyval) : M (pyval * instance) :=
  n ← lift (py_len value);
  if Nat.eqb n 0 then mret (VStr "", self)
  else
    match value with
    | VList l =>
        (* Get list of selected lookup values *)
        let selection := map lk_value l in
        s ← lift (py_join SEPARATOR selection);
        mret (VStr s, self)
    | _ => raise AttributeError
    end.

(** [self.format_column_value(value)]: the method found along the class
    hierarchy of the instance. *)
Definition format_column_value (self : instance) (value : pyval)
    : M (pyval * instance) :=
  match inst_class self with
  | ColumnWidgetRegistry | TextWidgetFactory =>
      ColumnWidgetRegistry_format_column_value self value
  | VarCharWidgetFactory => VarCharWidgetFactory_format_column_value self value
  | DateWidgetFactory => DateWidgetFactory_format_column_value self value
  | DateTimeWidgetFactory =>
      DateTimeWidgetFactory_format_column_value self value
  | IntegerWidgetFactory => IntegerWidgetFactory_format_column_value self value
  | DoubleWidgetFactory | PercentWidgetFactory =>
      DoubleWidgetFactory_format_column_value self value
  | BooleanWidgetFactory => BooleanWidgetFactory_format_column_value self value
  | RelatedEntityWidgetFactory =>
      RelatedEntityWidgetFactory_format_column_value self value
  | AdministrativeUnitWidgetFactory =>
      AdministrativeUnitWidgetFactory_format_column_value self value
  | LookupWidgetFactory => LookupWidgetFactory_format_column_value self value
  | MultipleSelectWidgetFactory =>
      MultipleSelectWidgetFactory_format_column_value self value
  end.

(** ** Widgets

    A widget is the toolkit class it was built from, the column and parent
    handed to its constructor, and the calls made on it, in order. *)

Inductive qt_class :=
| QLineEdit
| QTextEdit
| QDateEdit
| QDateTimeEdit
| QSpinBox
| QDoubleSpinBox
| QCheckBox
| QComboBox
| RelatedEntityLineEdit
| AdministrativeUnitLineEdit
| MultipleSelectTreeView.

Inductive qt_call :=
| setObjectName (s : string)
| setMaxLength (v : pyval)
| setCalendarPopup (b : bool)
| setMinimumDate (v : pyval)
| setMaximumDate (v : pyval)
| setDate (v : pyval)
| setMinimumDateTime (v : pyval)
| setMaximumDateTime (v : pyval)
| setDateTime (v : pyval)
| valueFromText (s : string)
| setMinimum (v : pyval)
| setMaximum (v : pyval)
| setMinimum_float (v : pyval)      (* [setMinimum(float(v))] *)
| setMaximum_float (v : pyval)      (* [setMaximum(float(v))] *)
| setSuffix (s : string)
| addItem (text : pyval) (data : pyval).

Record widget := {
  w_class : qt_class;
  w_column : option column;
  w_parent : option nat;
  w_calls : list qt_call
}.

Definition call (w : widget) (c : qt_call) : widget :=
  {| w_class := w_class w; w_column := w_column w; w_parent := w_parent w;
     w_calls := w_calls w ++ [c] |}.

(** [u'{0}_{1}'.format(cls._TYPE_PREFIX, c.name)] *)
Definition object_name (cls : factory_class) (c : column) : string :=
  _TYPE_PREFIX cls +:+ "_" +:+ name c.

Definition new_widget (k : qt_class) (c : option column)
    (parent : option nat) : widget :=
  {| w_class := k; w_column := c; w_parent := parent; w_calls := [] |}.

(** [cls._create_widget(c, parent)] *)
Definition _create_widget (cls : factory_class) (c : column)
    (parent : option nat) : M widget :=
  match cls with
  | ColumnWidgetRegistry => raise NotImplementedError
  | VarCharWidgetFactory =>
      let le := new_widget QLineEdit None parent in
      let le := call le (setObjectName (object_name cls c)) in
      let le := call le (setMaxLength (maximum c)) in
      mret le
  | TextWidgetFactory =>
      let te := new_widget QTextEdit None parent in
      let te := call te (setObjectName (object_name cls c)) in
      mret te
  | DateWidgetFactory =>
      w ← get_world;
      let dt := new_widget QDateEdit None parent in
      let dt := call dt (setObjectName (object_name cls c)) in
      let dt := call dt (setCalendarPopup true) in
      let dt :=
        if min_use_current_date c then call dt (setMinimumDate (today w))
        else call dt (setMinimumDate (minimum c)) in
      let dt :=
        if max_use_current_date c then call dt (setMaximumDate (today w))
        else call dt (setMaximumDate (maximum c)) in
      let dt := call dt (setDate (today w)) in
      mret dt
  | DateTimeWidgetFactory =>
      w ← get_world;
      let dtt := new_widget QDateTimeEdit None parent in
      let dtt := call dtt (setObjectName (object_name cls c)) in
      let dtt := call dtt (setCalendarPopup true) in
      let dtt :=
        if min_use_current_datetime c
        then call dtt (setMinimumDateTime (now w))
        else call dtt (setMinimumDateTime (minimum c)) in
      (* [dtt.maximumDateTime()] is the maximum that has just been set *)
      let maximumDateTime :=
        if max_use_current_datetime c then now w else maximum c in
      let dtt := call dtt (setMaximumDateTime maximumDateTime) in
      let dtt := call dtt (setDateTime maximumDateTime) in
      mret dtt
  | IntegerWidgetFactory =>
      let sb := new_widget QSpinBox None parent in
      let sb := call sb (setObjectName (object_name cls c)) in
      s_min ← lift (py_str (minimum c));
      let sb := call sb (valueFromText s_min) in
      s_max ← lift (py_str (maximum c));
      let sb := call sb (valueFromText s_max) in
      let sb := call sb (setMinimum (minimum c)) in
      let sb := call sb (setMaximum (maximum c)) in
      mret sb
  | DoubleWidgetFactory | PercentWidgetFactory =>
      let dsb := new_widget QDoubleSpinBox None parent in
      let dsb := call dsb (setObjectName (object_name cls c)) in
      let dsb := call dsb (setMinimum_float (minimum c)) in
      let dsb := call dsb (setMaximum_float (maximum c)) in
      mret dsb
  | BooleanWidgetFactory =>
      let chb := new_widget QCheckBox None parent in
      let chb := call chb (setObjectName (object_name cls c)) in
      mret chb
  | RelatedEntityWidgetFactory =>
      let re_le := new_widget RelatedEntityLineEdit (Some c) parent in
      let re_le := call re_le (setObjectName (object_name cls c)) in
      mret re_le
  | AdministrativeUnitWidgetFactory =>
      let aule := new_widget AdministrativeUnitLineEdit (Some c) parent in
      let aule := call aule (setObjectName (object_name cls c)) in
      mret aule
  | LookupWidgetFactory =>
      let cbo := new_widget QComboBox None parent in
      let cbo := call cbo (setObjectName (object_name cls c)) in
      (* Create a new instance of the class so that we can get the ids *)
      cls_obj ← new_instance cls c;
      lks ← lookups cls_obj;
      let cbo := call cbo (addItem (VStr "") VNone) in
      (* Populate combobox, in the order the dict yields its items *)
      let cbo :=
        foldl (fun cbo '(id, cd_val) =>
                 call cbo (addItem (field_val cd_val.1) (VInt id)))
              cbo (map_to_list lks) in
      mret cbo
  | MultipleSelectWidgetFactory =>
      let mstv := new_widget MultipleSelectTreeView (Some c) parent in
      let mstv := call mstv (setObjectName (object_name cls c)) in
      mret mstv
  end.

(** [cls._widget_configuration(widget, c)]: only the percent factory
    overrides the default, which does nothing. *)
Definition _widget_configuration (cls : factory_class) (w : widget)
    (c : column) : M widget :=
  match cls with
  | PercentWidgetFactory =>
      (* Add percentage suffix *)
      mret (call w (setSuffix " %"))
  | _ => mret w
  end.

(** ** The registry *)

(** [cls.register()] *)
Definition register (cls : factory_class) : M unit :=
  w ← get_world;
  set_registered_factories
    (<[COLUMN_TYPE_INFO cls := cls]> (registered_factories w)).

(** [ColumnWidgetRegistry.factory(type_info)] *)
Definition factory (type_info : string) : M (option factory_class) :=
  w ← get_world;
  mret (registered_factories w !! type_info).

(** [ColumnWidgetRegistry.create(c, parent)] *)
Definition create (c : column) (parent : option nat) : M (option widget) :=
  fac ← factory (TYPE_INFO c);
  match fac with
  | Some fac =>
      w ← _create_widget fac c parent;
      w ← _widget_configuration fac w c;
      mret (Some w)
  | None => mret None
  end.

(** The [register()] calls made while the module is loaded, in order. *)
Definition module_factories : list factory_class :=
  [ VarCharWidgetFactory; TextWidgetFactory; DateWidgetFactory;
    DateTimeWidgetFactory; IntegerWidgetFactory; DoubleWidgetFactory;
    PercentWidgetFactory; BooleanWidgetFactory; RelatedEntityWidgetFactory;
    AdministrativeUnitWidgetFactory; LookupWidgetFactory;
    MultipleSelectWidgetFactory ].

(** [register()] on each class of a list, in order. *)
Fixpoint register_all (classes : list factory_class) : M unit :=
  match classes with
  | [] => mret tt
  | cls :: rest => _ ← register cls; register_all rest
  end.

(** ** EntityValueFormatter *)

Record EntityValueFormatter := {
  entity_name : string;
  fmt_entity : option entity;                       (* [self.entity] *)
  _registered_columns : gmap string instance
}.

(** [profile.entity_by_name(name)] *)
Definition entity_by_name (p : profile) (n : string) : option entity :=
  prf_entities p !! n.

(** [entity.column(name)] *)
Definition entity_column (e : entity) (n : string) : option column :=
  ent_columns e !! n.

(** [EntityValueFormatter(name=..., entity=...)]; a missing keyword is the
    empty string, respectively [None]. *)
Definition EntityValueFormatter_init (kw_name : option string)
    (kw_entity : option entity) : M EntityValueFormatter :=
  let entity_name := default "" kw_name in
  let ent := kw_entity in
  w ← get_world;
  let _current_profile := current_profile w in
  (* Use entity name to set entity object *)
  let ent :=
    match ent with
    | None =>
        if negb (String.eqb entity_name "") then
          match _current_profile with
          | Some p => entity_by_name p entity_name
          | None => ent
          end
        else ent
    | Some _ => ent
    end in
  mret {| entity_name := entity_name; fmt_entity := ent;
          _registered_columns := ∅ |}.

Definition registered_columns (self : EntityValueFormatter)
    : gmap string instance :=
  _registered_columns self.

Definition set_handler (self : EntityValueFormatter) (n : string)
    (h : instance) : EntityValueFormatter :=
  {| entity_name := entity_name self; fmt_entity := fmt_entity self;
     _registered_columns := <[n := h]> (_registered_columns self) |}.

(** [register_column(name)]; calling the [None] that [factory] answers for
    an unregistered type raises [TypeError]. *)
Definition register_column (self : EntityValueFormatter) (name : string)
    : M (bool * EntityValueFormatter) :=
  match fmt_entity self with
  | None => mret (false, self)
  | Some ent =>
      if decide (is_Some (_registered_columns self !! name))
      then mret (false, self)
      else
        match entity_column ent name with
        | None => mret (false, self)
        | Some column =>
            value_handler_cls ← factory (TYPE_INFO column);
            match value_handler_cls with
            | None => raise TypeError
            | Some value_handler_cls =>
                value_handler ← new_instance value_handler_cls column;
                (* Add handler to collection *)
                mret (true, set_handler self name value_handler)
            end
        end
  end.

(** The loop of [register_columns], [state] being its local variable. *)
Fixpoint register_columns_loop (self : EntityValueFormatter)
    (columns : list string) (state : bool)
    : M (bool * EntityValueFormatter) :=
  match columns with
  | [] => mret (state, self)
  | c :: rest =>
      r ← register_column self c;
      register_columns_loop r.2 rest r.1
  end.

Definition register_columns (self : EntityValueFormatter)
    (columns : list string) : M (bool * EntityValueFormatter) :=
  register_columns_loop self columns false.

(** [value_handler(name)] *)
Definition value_handler (self : EntityValueFormatter) (name : string)
    : option instance :=
  _registered_columns self !! name.

(** [column_display_value(name, value)].  The handler stored in the
    collection is the object that formats, so what formatting adds to its
    cache stays in the collection. *)
Definition column_display_value (self : EntityValueFormatter)
    (name : string) (value : pyval) : M (pyval * EntityValueFormatter) :=
  if decide (is_Some (_registered_columns self !! name)) then
    match _registered_columns self !! name with
    | Some value_handler =>
        r ← format_column_value value_handler value;
        mret (r.1, set_handler self name r.2)
    | None => raise AttributeError
    end
  else mret (value, self).

End Widgets.

(** ** Notions used by the properties *)

Section Notions.
Context `{Externals}.

(** The class registered last under a tag by a sequence of [register()]
    calls, if any of the classes carries the tag. *)
Definition last_registered (tag : string) (classes : list factory_class)
    : option factory_class :=
  last (filter (fun cls => COLUMN_TYPE_INFO cls = tag) classes).

(** [register_column] called once per name, in order, each call returning:
    the answers of the calls, and the formatter and world they end in. *)
Inductive calls_in_order
    : EntityValueFormatter -> world -> list string -> list bool ->
      EntityValueFormatter -> world -> Prop :=
| calls_done self w : calls_in_order self w [] [] self w
| calls_next self w c rest b bs self1 w1 self2 w2 :
    register_column self c w = (Ret (b, self1), w1) ->
    calls_in_order self1 w1 rest bs self2 w2 ->
    calls_in_order self w (c :: rest) (b :: bs) self2 w2.

(** The number of single-row lookups among the queries sent so far. *)
Definition lookups_sent (w : world) : nat :=
  length (List.filter is_first (db_log w)).

End Notions.

(** ** A small configuration, for concrete runs *)

Module Sample.

Definition externals : Externals := {|
  translate := fun _ text => text;
  column_TYPE_INFO := fun k =>
    match k with
    | VarCharColumn => "VARCHAR"
    | TextColumn => "TEXT"
    | DateColumn => "DATE"
    | DateTimeColumn => "DATETIME"
    | IntegerColumn => "INT"
    | DoubleColumn => "DOUBLE"
    | PercentColumn => "PERCENT"
    | BooleanColumn => "BOOL"
    | ForeignKeyColumn => "FOREIGN_KEY"
    | AdministrativeSpatialUnitColumn => "ADMIN_SPATIAL_UNIT"
    | LookupColumn => "LOOKUP"
    | MultipleSelectColumn => "MULTIPLE_SELECT"
    end;
  process_display := fun _ rec =>
    VStr (String.concat " " (map (fun kv => py_unicode kv.2) (p_attrs rec)));
  row_getitem := fun _ _ => Raise TypeError
|}.

(** A configuration in which the percent column class carries the tag of
    the double column class. *)
Definition shared_tag_externals : Externals := {|
  translate := fun _ text => text;
  column_TYPE_INFO := fun k =>
    match k with
    | VarCharColumn => "VARCHAR"
    | TextColumn => "TEXT"
    | DateColumn => "DATE"
    | DateTimeColumn => "DATETIME"
    | IntegerColumn => "INT"
    | DoubleColumn | PercentColumn => "DOUBLE"
    | BooleanColumn => "BOOL"
    | ForeignKeyColumn => "FOREIGN_KEY"
    | AdministrativeSpatialUnitColumn => "ADMIN_SPATIAL_UNIT"
    | LookupColumn => "LOOKUP"
    | MultipleSelectColumn => "MULTIPLE_SELECT"
    end;
  process_display := fun _ _ => VStr "";
  row_getitem := fun _ _ => Raise TypeError
|}.

Definition col (tag nm : string) : column := {|
  TYPE_INFO := tag; name := nm;
  minimum := VInt 0; maximum := VInt 100;
  min_use_current_date := false; max_use_current_date := false;
  min_use_current_datetime := false; max_use_current_datetime := false;
  entity_relation_parent := None;
  value_list := "check_gender";
  administrative_spatial_unit := "admin_spatial_unit_set"
|}.

Definition first_name : column := col "VARCHAR" "first_name".
Definition notes : column := col "TEXT" "notes".
Definition age : column := col "INT" "age".
Definition gender : column := col "LOOKUP" "gender".
Definition languages : column := col "MULTIPLE_SELECT" "languages".
Definition geom : column := col "GEOMETRY" "geom".

(** A foreign key column whose parent entity is resolved. *)
Definition household : column := {|
  TYPE_INFO := "FOREIGN_KEY"; name := "household";
  minimum := VNone; maximum := VNone;
  min_use_current_date := false; max_use_current_date := false;
  min_use_current_datetime := false; max_use_current_datetime := false;
  entity_relation_parent := Some "household";
  value_list := "";
  administrative_spatial_unit := "admin_spatial_unit_set"
|}.

(** A foreign key column whose parent entity could not be determined. *)
Definition orphan : column := col "FOREIGN_KEY" "orphan".

Definition male : lookup_row :=
  {| lk_id := 1; lk_value := Some "Male"; lk_code := Some "M";
     lk_repr := "<check_gender 1>" |}.
Definition female : lookup_row :=
  {| lk_id := 2; lk_value := Some "Female"; lk_code := Some "F";
     lk_repr := "<check_gender 2>" |}.

Definition row_A : lookup_row :=
  {| lk_id := 1; lk_value := Some "A"; lk_code := None;
     lk_repr := "<lookup 1>" |}.
Definition row_B : lookup_row :=
  {| lk_id := 2; lk_value := Some "B"; lk_code := None;
     lk_repr := "<lookup 2>" |}.

Definition smiths : parent_row :=
  {| p_id := 7; p_attrs := [("name", VStr "Smith"); ("size", VInt 4)] |}.

Definition district : aus_row :=
  {| aus_id := 3; aus_name := Some "Kibera"; aus_code := Some "KB" |}.

(** The database with the given rows in the gender value list. *)
Definition database_with (genders : list lookup_row) : database := {|
  parent_table := fun e =>
    if String.eqb e "household" then [smiths] else [];
  aus_table := fun e =>
    if String.eqb e "admin_spatial_unit_set" then [district] else [];
  lookup_table := fun e =>
    if String.eqb e "check_gender" then genders else []
|}.

Definition person : entity := {|
  ent_name := "person";
  ent_columns :=
    <["first_name" := first_name]>
      (<["gender" := gender]>
         (<["household" := household]>
            (<["orphan" := orphan]> (<["geom" := geom]> ∅))))
|}.

(** The world before the module is loaded. *)
Definition world_with (genders : list lookup_row) : world := {|
  registered_factories := ∅;
  db := database_with genders;
  db_log := [];
  current_profile := Some {| prf_entities := <["person" := person]> ∅ |};
  today := VObj {| obj_str := "2016-06-08"; obj_unicode := "2016-06-08";
                   obj_truth := true;
                   obj_strftime := Some (fun _ => "06/08/16");
                   obj_int := None |};
  now := VObj {| obj_str := "2016-06-08 12:00:00";
                 obj_unicode := "2016-06-08 12:00:00";
                 obj_truth := true;
                 obj_strftime := Some (fun _ => "Wed Jun  8 12:00:00 2016");
                 obj_int := None |}
|}.

(** The world once the module is loaded: every factory has registered. *)
Definition loaded (genders : list lookup_row) : world :=
  (@register_all externals module_factories (world_with genders)).2.

(** A formatter bound to the person entity, nothing registered yet. *)
Definition formatter : EntityValueFormatter :=
  {| entity_name := "person"; fmt_entity := Some person;
     _registered_columns := ∅ |}.

Definition plain (cls : factory_class) (c : column) : instance :=
  {| inst_class := cls; _column := c; inst_attrs := NoAttrs |}.

(** The loaded world with only the first gender row in the database. *)
Definition w0 : world := loaded [male].

(** The same world after a second gender row has been added. *)
Definition w1 : world := loaded [male; female].

(** A foreign key handler built while the household table was empty. *)
Definition household_handler : instance :=
  {| inst_class := RelatedEntityWidgetFactory; _column := household;
     inst_attrs := RelatedAttrs ∅ "household" |}.

(** The same handler with the row of the Smiths in its cache. *)
Definition household_handler_7 : instance :=
  {| inst_class := RelatedEntityWidgetFactory; _column := household;
     inst_attrs := RelatedAttrs (<[7 := smiths]> ∅) "household" |}.

Definition languages_handler : instance :=
  {| inst_class := MultipleSelectWidgetFactory; _column := languages;
     inst_attrs := LookupAttrs (<[1 := (Some "Male", Some "M")]> ∅) |}.

(** The formatter after [first_name] has been registered. *)
Definition formatter_1 : EntityValueFormatter :=
  {| entity_name := "person"; fmt_entity := Some person;
     _registered_columns :=
       <["first_name" := plain VarCharWidgetFactory first_name]> ∅ |}.

(** The formatter after [first_name] and [household] have been
    registered. *)
Definition formatter_2 : EntityValueFormatter :=
  {| entity_name := "person"; fmt_entity := Some person;
     _registered_columns :=
       <["household" := household_handler_7]>
         (<["first_name" := plain VarCharWidgetFactory first_name]> ∅) |}.


(** A lookup handler built in [w0]. *)
Definition gender_handler : instance :=
  {| inst_class := LookupWidgetFactory; _column := gender;
     inst_attrs := LookupAttrs (<[1 := (Some "Male", Some "M")]> ∅) |}.

Definition ward : column := col "ADMIN_SPATIAL_UNIT" "ward".

(** An administrative unit handler built in [w0]. *)
Definition ward_handler : instance :=
  {| inst_class := AdministrativeUnitWidgetFactory; _column := ward;
     inst_attrs :=
       AusAttrs (<[3 := AusList (Some "Kibera") (Some "KB")]> ∅)
         "admin_spatial_unit_set" |}.


(** A column of the type tag of the base class. *)
Definition untyped : column := col "NA" "untyped".

(** A lookup row without value. *)
Definition row_blank : lookup_row :=
  {| lk_id := 3; lk_value := None; lk_code := None;
     lk_repr := "<lookup 3>" |}.

(** The loaded world after the base class has registered as well. *)
Definition w_base : world := (@register externals ColumnWidgetRegistry w0).2.

(** The world [w0] after the bulk query for the households. *)
Definition w0_households : world := with_query w0 (QueryAll "household").

(** A formatter holding the foreign key handler with an empty cache. *)
Definition formatter_h : EntityValueFormatter :=
  {| entity_name := "person"; fmt_entity := Some person;
     _registered_columns := <["household" := household_handler]> ∅ |}.

(** The same formatter once the handler has cached the Smiths. *)
Definition formatter_h7 : EntityValueFormatter :=
  {| entity_name := "person"; fmt_entity := Some person;
     _registered_columns := <["household" := household_handler_7]> ∅ |}.

Definition first_name_widget : widget :=
  {| w_class := QLineEdit; w_column := None; w_parent := Some 5%nat;
     w_calls := [setObjectName "le__first_name"; setMaxLength (VInt 100)] |}.


End Sample.

(** ** UserTipLabel

    The label is modelled by what the constructor sets on it: the parent,
    the size policy, mouse tracking, the pixmap, the style sheet of the
    tooltip and the user tip. *)

Record UserTipLabel := {
  tip_parent : option nat;
  tip_sizePolicy : string * string;
  tip_mouseTracking : bool;
  _px : string;
  tip_styleSheet : string;
  _user_tip : pyval
}.

(** [UserTipLabel(parent, user_tip)]; an omitted [user_tip] is [None]. *)
Definition UserTipLabel_init (parent : option nat) (tip : pyval)
    : UserTipLabel :=
  {| tip_parent := parent;
     (* Set size policy *)
     tip_sizePolicy := ("Fixed", "Fixed");
     tip_mouseTracking := true;
     (* Set tip icon *)
     _px := ":/plugins/stdm/images/icons/user_tip.png";
     (* Customize appearance of the tooltip *)
     tip_styleSheet :=
       "QToolTip { color: #ffffff; background-color: #2a82da; "
       +:+ "border: 1px solid white; }";
     (* Initialize user tip *)
     _user_tip := match tip with VNone => VStr "" | _ => tip end |}.

(** [label.pixmap()] *)
Definition pixmap (self : UserTipLabel) : string := _px self.

(** The property [label.user_tip] *)
Definition user_tip (self : UserTipLabel) : pyval := _user_tip self.

(** The assignment [label.user_tip = value] *)
Definition set_user_tip (self : UserTipLabel) (value : pyval)
    : UserTipLabel :=
  if negb (truthy value) then self
  else
    {| tip_parent := tip_parent self; tip_sizePolicy := tip_sizePolicy self;
       tip_mouseTracking := tip_mouseTracking self; _px := _px self;
       tip_styleSheet := tip_styleSheet self; _user_tip := value |}.

(** [label.mouseMoveEvent(mouseEvent)]: the position and the text handed to
    [QToolTip.showText]. *)
Definition mouseMoveEvent (self : UserTipLabel) (globalPos : Z * Z)
    : (Z * Z) * pyval :=
  (globalPos, _user_tip self).

(** ** Further notions *)

(** The last of the rows carrying an id, as a bulk query returned them. *)
Definition last_with_id {R : Type} (id_of : R -> Z) (id : Z) (rows : list R)
    : option R :=
  last (filter (fun r => id_of r = id) rows).



(** The world differs from an earlier one at most by queries sent. *)
Definition only_queries (w w' : world) (sent : list db_query) : Prop :=
  registered_factories w' = registered_factories w
  ∧ db w' = db w
  ∧ current_profile w' = current_profile w
  ∧ today w' = today w
  ∧ now w' = now w
  ∧ db_log w' = (db_log w ++ sent)%list.

(** The toolkit class each factory builds its widget from; the base class
    builds none. *)
Definition toolkit_class (cls : factory_class) : option qt_class :=
  match cls with
  | ColumnWidgetRegistry => None
  | VarCharWidgetFactory => Some QLineEdit
  | TextWidgetFactory => Some QTextEdit
  | DateWidgetFactory => Some QDateEdit
  | DateTimeWidgetFactory => Some QDateTimeEdit
  | IntegerWidgetFactory => Some QSpinBox
  | DoubleWidgetFactory | PercentWidgetFactory => Some QDoubleSpinBox
  | BooleanWidgetFactory => Some QCheckBox
  | RelatedEntityWidgetFactory => Some RelatedEntityLineEdit
  | AdministrativeUnitWidgetFactory => Some AdministrativeUnitLineEdit
  | LookupWidgetFactory => Some QComboBox
  | MultipleSelectWidgetFactory => Some MultipleSelectTreeView
  end.


(** * Properties *)

Section Properties.
Context `{Externals}.

(** ** Formatting a missing value *)

(** C1, as the code has it.  Formatting [None] gives the empty string for
    the varchar, date, datetime, double, percent, boolean and lookup
    factories, and for the foreign key and administrative unit factories
    once their single-row lookup for the null id has found no row.  The
    boolean factory answers the localized "No" for an explicit false and
    the localized "Yes" for a true value.  The default of the base class,
    which the text factory inherits, is the unicode conversion, "None" for
    [None].  The multiple select factory formats lists: [None] raises
    [TypeError] and the empty list gives the empty string. *)
Theorem format_column_value_None (c : column) (a : attrs) (w : world) :
  let inst cls := {| inst_class := cls; _column := c; inst_attrs := a |} in
  Forall (fun cls =>
            format_column_value (inst cls) VNone w
            = (Ret (VStr "", inst cls), w))
         [ VarCharWidgetFactory; DateWidgetFactory; DateTimeWidgetFactory;
           DoubleWidgetFactory; PercentWidgetFactory; BooleanWidgetFactory ]
  ∧ (∀ lks,
       let self := {| inst_class := LookupWidgetFactory; _column := c;
                      inst_attrs := LookupAttrs lks |} in
       format_column_value self VNone w = (Ret (VStr "", self), w))
  ∧ (∀ cache p,
       let self := {| inst_class := RelatedEntityWidgetFactory; _column := c;
                      inst_attrs := RelatedAttrs cache p |} in
       format_column_value self VNone w
       = (Ret (VStr "", self), with_query w (QueryFirst p VNone)))
  ∧ (∀ cache aus,
       let self := {| inst_class := AdministrativeUnitWidgetFactory;
                      _column := c; inst_attrs := AusAttrs cache aus |} in
       format_column_value self VNone w
       = (Ret (VStr "", self), with_query w (QueryFirst aus VNone)))
  ∧ (∀ b : bool,
       format_column_value (inst BooleanWidgetFactory) (VBool b) w
       = (Ret (VStr (translate "EntityBrowser" (if b then "Yes" else "No")),
               inst BooleanWidgetFactory), w))
  ∧ (∀ v,
       format_column_value (inst BooleanWidgetFactory) v w
       = (Ret (VStr (match v with
                     | VNone => ""
                     | _ => translate "EntityBrowser"
                              (if truthy v then "Yes" else "No")
                     end),
               inst BooleanWidgetFactory), w))
  ∧ Forall (fun cls =>
              format_column_value (inst cls) VNone w
              = (Ret (VStr "None", inst cls), w))
           [ ColumnWidgetRegistry; TextWidgetFactory ]
  ∧ format_column_value (inst MultipleSelectWidgetFactory) VNone w
    = (Raise TypeError, w)
  ∧ format_column_value (inst MultipleSelectWidgetFactory) (VList []) w
    = (Ret (VStr "", inst MultipleSelectWidgetFactory), w).
Proof.
  intros inst. repeat split.
  - repeat constructor.
  - intros [] ; reflexivity.
  - intros v. destruct v; cbn; try reflexivity;
      match goal with |- context [if ?b then _ else _] => destruct b end;
      reflexivity.
  - repeat constructor.
Qed.

(** ** Running the monad *)

Lemma bind_run {A B : Type} (m : M A) (f : A -> M B) (w : world) :
  (m ≫= f) w
  = match m w with
    | (Ret a, w') => f a w'
    | (Raise e, w') => (Raise e, w')
    end.
Proof. reflexivity. Qed.

Lemma cache_get_int {V : Type} (cache : gmap Z V) (id : Z) (w : world) :
  cache_get cache (VInt id) w = (Ret (cache !! id), w).
Proof. reflexivity. Qed.

Lemma query_first_int {R : Type} (table : database -> string -> list R)
    (id_of : R -> Z) (ent : string) (id : Z) (w : world) :
  query_first table id_of ent (VInt id) w
  = (Ret (List.find (fun r => Z.eqb (id_of r) id) (table (db w) ent)),
     with_query w (QueryFirst ent (VInt id))).
Proof. reflexivity. Qed.

Lemma factory_run (type_info : string) (w : world) :
  factory type_info w = (Ret (registered_factories w !! type_info), w).
Proof. reflexivity. Qed.

Lemma find_by_id {R : Type} (id_of : R -> Z) (rows : list R) (z : Z) (r : R) :
  List.find (fun r => Z.eqb (id_of r) z) rows = Some r -> id_of r = z.
Proof.
  intros Hf. apply find_some in Hf as [_ Hf]. by apply Z.eqb_eq.
Qed.

Lemma lookups_sent_first (w : world) (ent : string) (v : pyval) :
  lookups_sent (with_query w (QueryFirst ent v)) = S (lookups_sent w).
Proof.
  unfold lookups_sent. cbn. rewrite List.filter_app, length_app. cbn. lia.
Qed.

Ltac run_format :=
  unfold format_column_value; cbn [inst_class];
  unfold RelatedEntityWidgetFactory_format_column_value,
         AdministrativeUnitWidgetFactory_format_column_value,
         LookupWidgetFactory_format_column_value, code_value, lookups;
  cbn [inst_attrs _column];
  rewrite ?bind_run, ?cache_get_int.

(** ** The relational factories *)

Lemma Related_hit c cache p id w rec :
  let self := {| inst_class := RelatedEntityWidgetFactory; _column := c;
                 inst_attrs := RelatedAttrs cache p |} in
  cache !! id = Some rec ->
  format_column_value self (VInt id) w
  = (Ret (process_display c rec, self), w).
Proof. intros self Hc; subst self. run_format. by rewrite Hc. Qed.

Lemma Related_miss c cache p id w :
  let self := {| inst_class := RelatedEntityWidgetFactory; _column := c;
                 inst_attrs := RelatedAttrs cache p |} in
  cache !! id = None ->
  format_column_value self (VInt id) w
  = match List.find (fun r => Z.eqb (p_id r) id) (parent_table (db w) p) with
    | Some rec =>
        (Ret (process_display c rec,
              with_attrs self (RelatedAttrs (<[id := rec]> cache) p)),
         with_query w (QueryFirst p (VInt id)))
    | None => (Ret (VStr "", self), with_query w (QueryFirst p (VInt id)))
    end.
Proof.
  intros self Hc; subst self. run_format.
  rewrite Hc, bind_run, query_first_int.
  destruct (List.find _ _) as [rec|] eqn:Hf; [|done].
  apply find_by_id in Hf. by rewrite Hf.
Qed.

Lemma AdministrativeUnit_hit c cache aus id w n cd :
  let self := {| inst_class := AdministrativeUnitWidgetFactory; _column := c;
                 inst_attrs := AusAttrs cache aus |} in
  cache !! id = Some (AusList n cd) ->
  format_column_value self (VInt id) w = (Ret (name_with_code n cd, self), w).
Proof. intros self Hc; subst self. run_format. by rewrite Hc. Qed.

Lemma AdministrativeUnit_miss c cache aus id w :
  let self := {| inst_class := AdministrativeUnitWidgetFactory; _column := c;
                 inst_attrs := AusAttrs cache aus |} in
  cache !! id = None ->
  format_column_value self (VInt id) w
  = match List.find (fun r => Z.eqb (aus_id r) id) (aus_table (db w) aus) with
    | Some res =>
        (Ret (name_with_code (aus_name res) (aus_code res),
              with_attrs self (AusAttrs (<[id := AusRow res]> cache) aus)),
         with_query w (QueryFirst aus (VInt id)))
    | None => (Ret (VStr "", self), with_query w (QueryFirst aus (VInt id)))
    end.
Proof.
  intros self Hc; subst self. run_format.
  rewrite Hc, bind_run, query_first_int.
  destruct (List.find _ _) as [res|] eqn:Hf; [|done].
  apply find_by_id in Hf. by rewrite Hf.
Qed.

(** What the administrative unit factory answers for an id whose entry is
    a row object depends on the indexing of row objects. *)
Lemma AdministrativeUnit_row_entry c cache aus id w res :
  let self := {| inst_class := AdministrativeUnitWidgetFactory; _column := c;
                 inst_attrs := AusAttrs cache aus |} in
  cache !! id = Some (AusRow res) ->
  format_column_value self (VInt id) w
  = match row_getitem res 0 with
    | Ret n =>
        match row_getitem res 1 with
        | Ret cd => (Ret (name_with_code n cd, self), w)
        | Raise e => (Raise e, w)
        end
    | Raise e => (Raise e, w)
    end.
Proof.
  intros self Hc; subst self. run_format. rewrite Hc.
  unfold lift; cbn. rewrite bind_run.
  destruct (row_getitem res 0); [|done]. rewrite bind_run.
  by destruct (row_getitem res 1).
Qed.

Lemma Lookup_format c lks id w :
  let self := {| inst_class := LookupWidgetFactory; _column := c;
                 inst_attrs := LookupAttrs lks |} in
  format_column_value self (VInt id) w
  = match lks !! id with
    | Some (v, cd) => (Ret (name_with_code v cd, self), w)
    | None => (Ret (VStr "", self), w)
    end.
Proof.
  intros self; subst self. run_format. cbn.
  rewrite bind_run, cache_get_int. by destruct (lks !! id) as [[v cd]|].
Qed.

(** C2, as the code has it.  The foreign key factory answers a cached id
    from its cache without a lookup; on an uncached id it sends exactly one
    single-row lookup, stores the row found under that id, and a later call
    for the id is answered from the cache with the same display value; if
    no row matches, the answer is the empty string.  The administrative
    unit factory answers an id cached by its constructor without a lookup;
    on an uncached id it sends exactly one single-row lookup and stores the
    row found under that id; if no row matches, the answer is the empty
    string.  The lookup factory has no fallback: a cached id gives the
    cached display value and any uncached id gives the empty string, in
    both cases without a lookup and without a change of the cache. *)
Theorem relational_format_column_value (c : column) (id : Z) (w : world) :
  (∀ cache p,
     let self := {| inst_class := RelatedEntityWidgetFactory; _column := c;
                    inst_attrs := RelatedAttrs cache p |} in
     let asked := with_query w (QueryFirst p (VInt id)) in
     let found :=
       List.find (fun r => Z.eqb (p_id r) id) (parent_table (db w) p) in
     (∀ rec, cache !! id = Some rec ->
        format_column_value self (VInt id) w
        = (Ret (process_display c rec, self), w))
     ∧ (∀ rec, cache !! id = None -> found = Some rec ->
          let self' :=
            with_attrs self (RelatedAttrs (<[id := rec]> cache) p) in
          format_column_value self (VInt id) w
          = (Ret (process_display c rec, self'), asked)
          ∧ lookups_sent asked = S (lookups_sent w)
          ∧ ∀ w2, format_column_value self' (VInt id) w2
                  = (Ret (process_display c rec, self'), w2))
     ∧ (cache !! id = None -> found = None ->
          format_column_value self (VInt id) w = (Ret (VStr "", self), asked)))
  ∧ (∀ cache aus,
       let self := {| inst_class := AdministrativeUnitWidgetFactory;
                      _column := c; inst_attrs := AusAttrs cache aus |} in
       let asked := with_query w (QueryFirst aus (VInt id)) in
       let found :=
         List.find (fun r => Z.eqb (aus_id r) id) (aus_table (db w) aus) in
       (∀ n cd, cache !! id = Some (AusList n cd) ->
          format_column_value self (VInt id) w
          = (Ret (name_with_code n cd, self), w))
       ∧ (∀ res, cache !! id = None -> found = Some res ->
            format_column_value self (VInt id) w
            = (Ret (name_with_code (aus_name res) (aus_code res),
                    with_attrs self
                      (AusAttrs (<[id := AusRow res]> cache) aus)),
               asked)
            ∧ lookups_sent asked = S (lookups_sent w))
       ∧ (cache !! id = None -> found = None ->
            format_column_value self (VInt id) w
            = (Ret (VStr "", self), asked)))
  ∧ (∀ lks,
       let self := {| inst_class := LookupWidgetFactory; _column := c;
                      inst_attrs := LookupAttrs lks |} in
       (∀ v cd, lks !! id = Some (v, cd) ->
          format_column_value self (VInt id) w
          = (Ret (name_with_code v cd, self), w))
       ∧ (lks !! id = None ->
            format_column_value self (VInt id) w = (Ret (VStr "", self), w))).
Proof.
  split; [|split].
  - intros cache p self asked found. split; [|split].
    + intros rec Hc. by apply Related_hit.
    + intros rec Hc Hf self'. split; [|split].
      * subst self self' asked. rewrite Related_miss by done.
        fold found. by rewrite Hf.
      * apply lookups_sent_first.
      * intros w2. apply Related_hit. apply lookup_insert_eq.
    + intros Hc Hf. subst self asked. rewrite Related_miss by done.
      fold found. by rewrite Hf.
  - intros cache aus self asked found. split; [|split].
    + intros n cd Hc. by apply AdministrativeUnit_hit.
    + intros res Hc Hf. split.
      * subst self asked. rewrite AdministrativeUnit_miss by done.
        fold found. by rewrite Hf.
      * apply lookups_sent_first.
    + intros Hc Hf. subst self asked.
      rewrite AdministrativeUnit_miss by done. fold found. by rewrite Hf.
  - intros lks self. split.
    + intros v cd Hl. subst self. rewrite Lookup_format. by rewrite Hl.
    + intros Hl. subst self. rewrite Lookup_format. by rewrite Hl.
Qed.

(** ** EntityValueFormatter *)

Lemma register_column_true self name w self' w' :
  register_column self name w = (Ret (true, self'), w') ->
  ∃ ent h, fmt_entity self = Some ent
           ∧ _registered_columns self !! name = None
           ∧ self' = set_handler self name h.
Proof.
  unfold register_column. intros Hr.
  destruct (fmt_entity self) as [ent|]; [|discriminate].
  destruct (decide (is_Some (_registered_columns self !! name)))
    as [|Hnone]; [discriminate|].
  destruct (entity_column ent name) as [column|]; [|discriminate].
  rewrite bind_run, factory_run in Hr.
  destruct (registered_factories w !! TYPE_INFO column) as [cls|];
    [|discriminate].
  rewrite bind_run in Hr.
  destruct (new_instance cls column w) as [[h|e] w1]; [|discriminate].
  injection Hr as <- <-. exists ent, h. split; [done|]. split; [|done].
  by apply eq_None_not_Some.
Qed.

(** C3.  Once [register_column(name)] has succeeded, a second call for the
    same name returns false, and the formatter it leaves is the one it
    found: the name is still mapped to the handler of the first call. *)
Theorem register_column_twice self name w self' w' :
  register_column self name w = (Ret (true, self'), w') ->
  ∃ h, registered_columns self' !! name = Some h
       ∧ ∀ w2, register_column self' name w2 = (Ret (false, self'), w2).
Proof.
  intros Hr. apply register_column_true in Hr as (ent & h & He & _ & ->).
  exists h. split.
  - unfold registered_columns, set_handler; cbn. apply lookup_insert_eq.
  - intros w2. unfold register_column, set_handler.
    cbn [fmt_entity _registered_columns]. rewrite He.
    destruct (decide _) as [|Hn]; [done|].
    exfalso. apply Hn. rewrite lookup_insert_eq. by eexists.
Qed.

(** C4.  For a name that is not registered [column_display_value] returns
    the raw value and leaves formatter and world as they are; for a
    registered name it returns what the registered handler's
    [format_column_value] returns for the value. *)
Theorem column_display_value_dispatch self name value w :
  column_display_value self name value w
  = match registered_columns self !! name with
    | None => (Ret (value, self), w)
    | Some h =>
        match format_column_value h value w with
        | (Ret (s, h'), w') => (Ret (s, set_handler self name h'), w')
        | (Raise e, w') => (Raise e, w')
        end
    end.
Proof.
  unfold column_display_value, registered_columns.
  destruct (_registered_columns self !! name) as [h|] eqn:Hh.
  - destruct (decide _) as [|Hn]; [|exfalso; apply Hn; by eexists].
    rewrite bind_run. by destruct (format_column_value h value w) as [[[s h']|e] w'].
  - destruct (decide _) as [[h Hs]|]; [discriminate|done].
Qed.

(** C10.  With a bound entity, for a column that exists in the entity and
    is not yet registered, [register_column] raises when no factory is
    registered for the column's type: the [None] answered by [factory] is
    called.  Nothing is registered and the world is unchanged. *)
Theorem register_column_unregistered_type self name w ent column :
  fmt_entity self = Some ent ->
  registered_columns self !! name = None ->
  entity_column ent name = Some column ->
  registered_factories w !! TYPE_INFO column = None ->
  register_column self name w = (Raise TypeError, w).
Proof.
  unfold registered_columns. intros He Hn Hc Hf.
  unfold register_column. rewrite He.
  destruct (decide _) as [[h Hs]|]; [congruence|].
  by rewrite Hc, bind_run, factory_run, Hf.
Qed.

Lemma last_cons_default {A : Type} (x d : A) (l : list A) :
  List.last (x :: l) d = List.last l x.
Proof.
  revert x d. induction l as [|y l IH]; intros x d; [done|].
  change (List.last (x :: y :: l) d) with (List.last (y :: l) d).
  by rewrite (IH y d), (IH y x).
Qed.

(** [register_columns] runs the calls of [calls_in_order]. *)
Lemma register_columns_loop_calls self w columns results self' w' :
  calls_in_order self w columns results self' w' ->
  ∀ state,
    register_columns_loop self columns state w
    = (Ret (List.last results state, self'), w').
Proof.
  induction 1 as [self w|self w c rest b bs self1 w1 self2 w2 Hc _ IH];
    intros state.
  - reflexivity.
  - cbn [register_columns_loop]. rewrite bind_run, Hc. cbn [fst snd].
    by rewrite IH, last_cons_default.
Qed.

Lemma register_columns_loop_app self w init results self1 w1 rest state :
  calls_in_order self w init results self1 w1 ->
  register_columns_loop self (init ++ rest) state w
  = register_columns_loop self1 rest (List.last results state) w1.
Proof.
  intros Hcalls. revert state.
  induction Hcalls as [self w|self w c tl b bs self1 w1 self2 w2 Hc _ IH];
    intros state.
  - reflexivity.
  - cbn [app register_columns_loop]. rewrite bind_run, Hc. cbn [fst snd].
    by rewrite IH, last_cons_default.
Qed.


(** A call that raises ends the loop: the names after it are not tried. *)
Lemma register_columns_raise self w init results self1 w1 c rest e w2 :
  calls_in_order self w init results self1 w1 ->
  register_column self1 c w1 = (Raise e, w2) ->
  register_columns self (init ++ c :: rest) w = (Raise e, w2).
Proof.
  intros Hcalls Hr. unfold register_columns.
  rewrite (register_columns_loop_app _ _ _ _ _ _ _ _ Hcalls).
  cbn [register_columns_loop]. by rewrite bind_run, Hr.
Qed.

(** ** The registry *)

Lemma register_run (cls : factory_class) (w : world) :
  ∃ w', register cls w = (Ret tt, w')
        ∧ registered_factories w'
          = <[COLUMN_TYPE_INFO cls := cls]> (registered_factories w).
Proof. by eexists. Qed.

(** C5.  For a column whose type has no registered factory [create]
    returns [None]; it does not raise and changes nothing. *)
Theorem create_unregistered c parent w :
  registered_factories w !! TYPE_INFO c = None ->
  create c parent w = (Ret None, w).
Proof.
  intros Hf. unfold create. by rewrite bind_run, factory_run, Hf.
Qed.

(** Conversely, with a factory registered for the type [create] does not
    return [None]. *)
Lemma create_registered c parent w fac :
  registered_factories w !! TYPE_INFO c = Some fac ->
  (create c parent w).1 ≠ Ret None.
Proof.
  intros Hf. unfold create. rewrite bind_run, factory_run, Hf, bind_run.
  destruct (_create_widget fac c parent w) as [[wd|e] w1]; [|done].
  rewrite bind_run.
  by destruct (_widget_configuration fac wd c w1) as [[wd'|e] w2].
Qed.

Lemma last_registered_cons tag cls classes :
  last_registered tag (cls :: classes)
  = match last_registered tag classes with
    | Some cls' => Some cls'
    | None => if decide (COLUMN_TYPE_INFO cls = tag) then Some cls else None
    end.
Proof.
  unfold last_registered. rewrite filter_cons.
  destruct (decide (COLUMN_TYPE_INFO cls = tag)); [|by destruct (last _)].
  apply last_cons.
Qed.

Lemma register_all_factory classes :
  ∀ w, ∃ w',
    register_all classes w = (Ret tt, w')
    ∧ ∀ tag,
        factory tag w'
        = (Ret (match last_registered tag classes with
                | Some cls => Some cls
                | None => registered_factories w !! tag
                end), w').
Proof.
  induction classes as [|cls rest IH]; intros w.
  - exists w. split; [done|]. intros tag. by rewrite factory_run.
  - destruct (register_run cls w) as (w1 & Hr & Hreg).
    destruct (IH w1) as (w' & Hall & Hfac).
    exists w'. split.
    + cbn [register_all]. by rewrite bind_run, Hr.
    + intros tag. rewrite Hfac, last_registered_cons, Hreg.
      destruct (last_registered tag rest); [done|].
      destruct (decide (COLUMN_TYPE_INFO cls = tag)) as [<-|Hne].
      * by rewrite lookup_insert_eq.
      * by rewrite lookup_insert_ne.
Qed.

(** C6.  No sequence of registrations raises, and afterwards [factory]
    answers, for every tag, the class registered last under the tag (or what
    it answered before if no class of the sequence carries the tag).  In
    particular, after two classes with the same tag have registered,
    [factory] answers the second one. *)
Theorem register_last_wins :
  (∀ classes w, ∃ w',
     register_all classes w = (Ret tt, w')
     ∧ ∀ tag,
         factory tag w'
         = (Ret (match last_registered tag classes with
                 | Some cls => Some cls
                 | None => registered_factories w !! tag
                 end), w'))
  ∧ (∀ cls1 cls2 w,
       COLUMN_TYPE_INFO cls1 = COLUMN_TYPE_INFO cls2 ->
       ∃ w',
         (_ ← register cls1; _ ← register cls2;
          factory (COLUMN_TYPE_INFO cls1)) w
         = (Ret (Some cls2), w')).
Proof.
  split; [intros classes; apply register_all_factory|].
  intros cls1 cls2 w Htag.
  destruct (register_run cls1 w) as (w1 & Hr1 & _).
  destruct (register_run cls2 w1) as (w2 & Hr2 & Hreg).
  exists w2. rewrite bind_run, Hr1, bind_run, Hr2, factory_run, Hreg, Htag.
  by rewrite lookup_insert_eq.
Qed.

(** ** Multiple select *)

Lemma all_strings_Some (ss : list string) :
  all_strings (map Some ss) = Some ss.
Proof. induction ss as [|s ss IH]; cbn; [done|by rewrite IH]. Qed.

(** C7.  The multiple select factory joins the [value] of the rows with
    ["; "]: the rows with values "A" and "B" give "A; B", and the empty
    list gives the empty string. *)
Theorem MultipleSelect_join (c : column) (a : attrs) (w : world) :
  let self := {| inst_class := MultipleSelectWidgetFactory; _column := c;
                 inst_attrs := a |} in
  (∀ l ss, map lk_value l = map Some ss ->
     format_column_value self (VList l) w
     = (Ret (VStr (String.concat "; " ss), self), w))
  ∧ (∀ ra rb, lk_value ra = Some "A" -> lk_value rb = Some "B" ->
       format_column_value self (VList [ra; rb]) w
       = (Ret (VStr "A; B", self), w))
  ∧ format_column_value self (VList []) w = (Ret (VStr "", self), w).
Proof.
  intros self.
  assert (Hjoin : ∀ l ss, map lk_value l = map Some ss ->
            format_column_value self (VList l) w
            = (Ret (VStr (String.concat "; " ss), self), w)).
  { intros l ss Hl. subst self. unfold format_column_value; cbn [inst_class].
    unfold MultipleSelectWidgetFactory_format_column_value.
    rewrite bind_run. cbn [lift py_len].
    destruct l as [|r l].
    - destruct ss; [done|discriminate].
    - cbn [length Nat.eqb]. rewrite bind_run. unfold lift, py_join.
      by rewrite Hl, all_strings_Some. }
  split; [done|]. split; [|done].
  intros ra rb Ha Hb. apply (Hjoin [ra; rb] ["A"; "B"]). cbn. by rewrite Ha, Hb.
Qed.

(** ** Construction of the foreign key factory *)

Lemma Related_init_unresolved c w :
  entity_relation_parent c = None ->
  new_instance RelatedEntityWidgetFactory c w
  = (Raise (WidgetException
             (translate "RelatedEntityWidgetFactory"
                ("The parent entity could not be determined. "
                 +:+ "The input control will not be created."))), w).
Proof.
  intros Hp. cbn [new_instance]. unfold RelatedEntityWidgetFactory_init.
  rewrite bind_run. cbn. by rewrite Hp.
Qed.


(** Registering such a column in a formatter fails with the same
    exception. *)
Lemma register_column_unresolved_parent self name w ent c :
  fmt_entity self = Some ent ->
  registered_columns self !! name = None ->
  entity_column ent name = Some c ->
  registered_factories w !! TYPE_INFO c = Some RelatedEntityWidgetFactory ->
  entity_relation_parent c = None ->
  ∃ msg, register_column self name w = (Raise (WidgetException msg), w).
Proof.
  unfold registered_columns. intros He Hn Hc Hf Hp.
  eexists. unfold register_column. rewrite He.
  destruct (decide _) as [[h Hs]|]; [congruence|].
  rewrite Hc, bind_run, factory_run, Hf, bind_run.
  by rewrite Related_init_unresolved.
Qed.

End Properties.

(** * Further properties *)

Section More.
Context `{Externals}.

(** ** UserTipLabel *)

Lemma set_user_tip_falsy lbl value :
  truthy value = false -> set_user_tip lbl value = lbl.
Proof. intros Hv. unfold set_user_tip. by rewrite Hv. Qed.

Lemma set_user_tip_truthy lbl value :
  truthy value = true -> user_tip (set_user_tip lbl value) = value.
Proof. intros Hv. unfold set_user_tip. by rewrite Hv. Qed.

(** X1.  Whatever the label is created with and whatever is assigned to
    its user tip afterwards, the user tip is never [None]. *)
Theorem user_tip_never_None parent tip values :
  user_tip (foldl set_user_tip (UserTipLabel_init parent tip) values) ≠ VNone.
Proof.
  assert (Hinit : user_tip (UserTipLabel_init parent tip) ≠ VNone)
    by (by destruct tip).
  revert Hinit. generalize (UserTipLabel_init parent tip) as lbl.
  induction values as [|v values IH]; intros lbl Hlbl; [done|].
  cbn [foldl]. apply IH.
  destruct (truthy v) eqn:Hv.
  - rewrite set_user_tip_truthy by done. by intros ->.
  - by rewrite set_user_tip_falsy.
Qed.

(** X2.  After a sequence of assignments the user tip is the last true
    value assigned, or the tip the label had if no assigned value was true:
    empty and other false values are ignored.  The pixmap is not affected
    and the tooltip shown on a mouse move carries this tip. *)
Theorem user_tip_last_assigned lbl values pos :
  let lbl' := foldl set_user_tip lbl values in
  user_tip lbl'
  = default (user_tip lbl) (last (filter (fun v => truthy v = true) values))
  ∧ pixmap lbl' = pixmap lbl
  ∧ mouseMoveEvent lbl' pos = (pos, user_tip lbl').
Proof.
  cbn zeta. split; [|split; [|done]].
  - revert lbl. induction values as [|v values IH]; intros lbl; [done|].
    cbn [foldl]. rewrite IH, filter_cons.
    destruct (decide (truthy v = true)) as [Hv|Hv].
    + rewrite last_cons, set_user_tip_truthy by done.
      by destruct (last _).
    + apply not_true_is_false in Hv. by rewrite set_user_tip_falsy.
  - revert lbl. induction values as [|v values IH]; intros lbl; [done|].
    cbn [foldl]. rewrite IH. unfold set_user_tip. by destruct (truthy v).
Qed.

(** ** The registry after loading *)

Lemma filter_absent {A B : Type} `{EqDecision B} (f : A -> B) (l : list A)
    (tag : B) :
  tag ∉ map f l -> filter (fun y => f y = tag) l = [].
Proof.
  induction l as [|y l IH]; intros Hn; [done|].
  rewrite filter_cons. cbn [map] in Hn.
  apply not_elem_of_cons in Hn as [Hy Hn].
  rewrite decide_False by congruence. by apply IH.
Qed.

Lemma last_filter_NoDup {A B : Type} `{EqDecision B} (f : A -> B)
    (l : list A) (x : A) :
  NoDup (map f l) -> x ∈ l -> last (filter (fun y => f y = f x) l) = Some x.
Proof.
  induction l as [|y l IH]; intros Hnd Hx.
  - by apply elem_of_nil in Hx.
  - cbn [map] in Hnd. apply NoDup_cons in Hnd as [Hy Hnd]. rewrite filter_cons.
    apply elem_of_cons in Hx as [->|Hx].
    + rewrite decide_True by done. by rewrite last_cons, filter_absent.
    + rewrite decide_False.
      * by apply IH.
      * intros Hfy. apply Hy. rewrite Hfy. by apply list_elem_of_fmap_2.
Qed.

(** X3.  When the classes of a sequence of registrations carry pairwise
    different tags, as the factories of the module do when the column
    classes have different type tags, then after the registrations
    [factory] answers each class for its own tag, and answers any other tag
    as it did before. *)
Theorem register_all_distinct_tags classes w :
  NoDup (map COLUMN_TYPE_INFO classes) ->
  ∃ w',
    register_all classes w = (Ret tt, w')
    ∧ (∀ cls, cls ∈ classes ->
         factory (COLUMN_TYPE_INFO cls) w' = (Ret (Some cls), w'))
    ∧ (∀ tag, tag ∉ map COLUMN_TYPE_INFO classes ->
         factory tag w' = (Ret (registered_factories w !! tag), w')).
Proof.
  intros Hnd. destruct (register_all_factory classes w) as (w' & Hall & Hfac).
  exists w'. split; [done|]. split.
  - intros cls Hin. rewrite Hfac. unfold last_registered.
    by rewrite (last_filter_NoDup COLUMN_TYPE_INFO classes cls).
  - intros tag Hn. rewrite Hfac. unfold last_registered.
    by rewrite (filter_absent COLUMN_TYPE_INFO classes tag).
Qed.


(** ** Construction of the relational factories *)

Lemma preload_lookup {R V : Type} (key : R -> Z) (val : R -> V)
    (rows : list R) (m : gmap Z V) (id : Z) :
  foldl (fun cache r => <[key r := val r]> cache) m rows !! id
  = match last_with_id key id rows with
    | Some r => Some (val r)
    | None => m !! id
    end.
Proof.
  unfold last_with_id. revert m.
  induction rows as [|r rows IH]; intros m; [done|].
  cbn [foldl]. rewrite IH, filter_cons.
  destruct (decide (key r = id)) as [<-|Hne].
  - rewrite last_cons. destruct (last _); [done|]. by rewrite lookup_insert_eq.
  - destruct (last _); [done|]. by rewrite lookup_insert_ne.
Qed.

Lemma Related_init_run c w p :
  entity_relation_parent c = Some p ->
  new_instance RelatedEntityWidgetFactory c w
  = (Ret {| inst_class := RelatedEntityWidgetFactory; _column := c;
            inst_attrs :=
              RelatedAttrs
                (foldl (fun cache r => <[p_id r := r]> cache) ∅
                   (parent_table (db w) p)) p |},
     with_query w (QueryAll p)).
Proof.
  intros Hp. cbn [new_instance]. unfold RelatedEntityWidgetFactory_init.
  rewrite bind_run. cbn. by rewrite Hp.
Qed.

Lemma AdministrativeUnit_init_run c w :
  new_instance AdministrativeUnitWidgetFactory c w
  = (Ret {| inst_class := AdministrativeUnitWidgetFactory; _column := c;
            inst_attrs :=
              AusAttrs
                (foldl (fun cache r =>
                          <[aus_id r := AusList (aus_name r) (aus_code r)]>
                            cache) ∅
                   (aus_table (db w) (administrative_spatial_unit c)))
                (administrative_spatial_unit c) |},
     with_query w (QueryAll (administrative_spatial_unit c))).
Proof. reflexivity. Qed.

Lemma Lookup_init_run cls c w :
  LookupWidgetFactory_init cls c w
  = (Ret {| inst_class := cls; _column := c;
            inst_attrs :=
              LookupAttrs
                (foldl (fun lookups r =>
                          <[lk_id r := (lk_value r, lk_code r)]> lookups) ∅
                   (lookup_table (db w) (value_list c))) |},
     with_query w (QueryAll (value_list c))).
Proof. reflexivity. Qed.

(** X4.  Each relational constructor sends one bulk query and nothing else,
    and caches under every id the last row the query returned with that id:
    the row itself in the foreign key factory, the list of its name and
    code in the administrative unit factory, its value and code in the
    lookup and multiple select factories.  An id without row is absent from
    the cache. *)
Theorem constructors_preload c w :
  (∀ p, entity_relation_parent c = Some p ->
     ∃ cache,
       new_instance RelatedEntityWidgetFactory c w
       = (Ret {| inst_class := RelatedEntityWidgetFactory; _column := c;
                 inst_attrs := RelatedAttrs cache p |},
          with_query w (QueryAll p))
       ∧ ∀ id, cache !! id = last_with_id p_id id (parent_table (db w) p))
  ∧ (∃ cache,
       let aus := administrative_spatial_unit c in
       new_instance AdministrativeUnitWidgetFactory c w
       = (Ret {| inst_class := AdministrativeUnitWidgetFactory; _column := c;
                 inst_attrs := AusAttrs cache aus |},
          with_query w (QueryAll aus))
       ∧ ∀ id, cache !! id
               = (fun r => AusList (aus_name r) (aus_code r))
                   <$> last_with_id aus_id id (aus_table (db w) aus))
  ∧ Forall (fun cls =>
              ∃ lks,
                new_instance cls c w
                = (Ret {| inst_class := cls; _column := c;
                          inst_attrs := LookupAttrs lks |},
                   with_query w (QueryAll (value_list c)))
                ∧ ∀ id, lks !! id
                        = (fun r => (lk_value r, lk_code r))
                            <$> last_with_id lk_id id
                                  (lookup_table (db w) (value_list c)))
           [LookupWidgetFactory; MultipleSelectWidgetFactory].
Proof.
  split; [|split].
  - intros p Hp. eexists. split; [by apply Related_init_run|].
    intros id. rewrite preload_lookup. by destruct (last_with_id _ _ _).
  - eexists. split; [apply AdministrativeUnit_init_run|].
    intros id. rewrite preload_lookup. by destruct (last_with_id _ _ _).
  - repeat constructor.
    + eexists. split; [apply Lookup_init_run|].
      intros id. rewrite preload_lookup. by destruct (last_with_id _ _ _).
    + eexists. split; [apply Lookup_init_run|].
      intros id. rewrite preload_lookup. by destruct (last_with_id _ _ _).
Qed.


(** ** Values cached at construction *)

Lemma last_with_id_elem {R : Type} (key : R -> Z) (rows : list R) (r : R) :
  r ∈ rows ->
  ∃ r', last_with_id key (key r) rows = Some r' ∧ key r' = key r ∧ r' ∈ rows.
Proof.
  intros Hr. unfold last_with_id.
  destruct (last (filter (fun r0 => key r0 = key r) rows)) as [r'|] eqn:Hl.
  - exists r'. split; [done|].
    apply last_Some_elem_of, list_elem_of_filter in Hl. tauto.
  - apply last_None in Hl.
    by destruct (filter_nil_not_elem_of _ _ r Hl eq_refl).
Qed.

Lemma last_with_id_absent {R : Type} (key : R -> Z) (rows : list R) id :
  id ∉ map key rows -> last_with_id key id rows = None.
Proof. intros Hn. unfold last_with_id. by rewrite filter_absent. Qed.

(** X5.  A foreign key factory answers an id that had a row when the
    factory was built from the rows read then: in every later world,
    whatever the database holds by then, it sends no query and displays the
    last row that carried the id at construction. *)
Theorem Related_preloaded c w p self w1 r :
  entity_relation_parent c = Some p ->
  new_instance RelatedEntityWidgetFactory c w = (Ret self, w1) ->
  r ∈ parent_table (db w) p ->
  ∃ r',
    last_with_id p_id (p_id r) (parent_table (db w) p) = Some r'
    ∧ ∀ w2, format_column_value self (VInt (p_id r)) w2
            = (Ret (process_display c r', self), w2).
Proof.
  intros Hp Hnew Hr. rewrite (Related_init_run c w p Hp) in Hnew.
  injection Hnew as <- <-.
  destruct (last_with_id_elem p_id _ r Hr) as (r' & Hl & _ & _).
  exists r'. split; [done|]. intros w2.
  apply Related_hit. by rewrite preload_lookup, Hl.
Qed.

(** X6.  A lookup factory answers from the rows read when it was built, in
    every later world and without a query: an id that had a row then is
    displayed as the value of the last such row, followed by its code in
    parentheses when the code is not empty; an id that had no row then is
    displayed as the empty string, whether or not it has one by now. *)
Theorem Lookup_preloaded c w self w1 :
  new_instance LookupWidgetFactory c w = (Ret self, w1) ->
  let rows := lookup_table (db w) (value_list c) in
  (∀ r, r ∈ rows ->
     ∃ r', last_with_id lk_id (lk_id r) rows = Some r'
           ∧ ∀ w2, format_column_value self (VInt (lk_id r)) w2
                   = (Ret (name_with_code (lk_value r') (lk_code r'), self),
                      w2))
  ∧ (∀ id, id ∉ map lk_id rows ->
       ∀ w2, format_column_value self (VInt id) w2 = (Ret (VStr "", self), w2)).
Proof.
  intros Hnew rows. cbn [new_instance] in Hnew.
  rewrite Lookup_init_run in Hnew. injection Hnew as <- <-. split.
  - intros r Hr. destruct (last_with_id_elem lk_id _ r Hr) as (r' & Hl & _ & _).
    exists r'. split; [done|]. intros w2.
    rewrite Lookup_format, preload_lookup. fold rows. by rewrite Hl.
  - intros id Hid w2. rewrite Lookup_format, preload_lookup. fold rows.
    by rewrite last_with_id_absent.
Qed.

(** X7.  An administrative unit factory answers an id that had a row when
    the factory was built without a query, in every later world: it
    displays the name of the last such row, followed by its code in
    parentheses when the code is not empty. *)
Theorem AdministrativeUnit_preloaded c w self w1 r :
  new_instance AdministrativeUnitWidgetFactory c w = (Ret self, w1) ->
  let rows := aus_table (db w) (administrative_spatial_unit c) in
  r ∈ rows ->
  ∃ r', last_with_id aus_id (aus_id r) rows = Some r'
        ∧ ∀ w2, format_column_value self (VInt (aus_id r)) w2
                = (Ret (name_with_code (aus_name r') (aus_code r'), self), w2).
Proof.
  intros Hnew rows Hr. rewrite AdministrativeUnit_init_run in Hnew.
  injection Hnew as <- <-.
  destruct (last_with_id_elem aus_id _ r Hr) as (r' & Hl & _ & _).
  exists r'. split; [done|]. intros w2.
  apply AdministrativeUnit_hit. rewrite preload_lookup. fold rows.
  by rewrite Hl.
Qed.


(** ** What formatting leaves alone *)

Lemma only_queries_refl w : only_queries w w [].
Proof. unfold only_queries. by rewrite app_nil_r. Qed.

Lemma only_queries_one w q : only_queries w (with_query w q) [q].
Proof. by unfold only_queries. Qed.

Ltac unfold_monad :=
  repeat (progress unfold mbind, M_bind, mret, M_ret, lift, raise, cache_get,
            query_first, send_query, get_world in * ).

Ltac crunch :=
  repeat (unfold_monad;
          first [ progress simplify_eq/=
                | match goal with
                  | Hm : context [match ?x with _ => _ end] |- _ =>
                      destruct x eqn:?
                  end ]).

Lemma format_column_value_frame self value w r w' :
  format_column_value self value w = (r, w') ->
  (only_queries w w' [] ∨ ∃ ent, only_queries w w' [QueryFirst ent value])
  ∧ (inst_class self ≠ RelatedEntityWidgetFactory ->
     inst_class self ≠ AdministrativeUnitWidgetFactory ->
     w' = w ∧ ∀ d self', r = Ret (d, self') -> self' = self)
  ∧ (∀ d self', r = Ret (d, self') ->
       inst_class self' = inst_class self ∧ _column self' = _column self).
Proof.
  intros Hf. unfold format_column_value in Hf.
  destruct (inst_class self) eqn:Hcls;
    unfold ColumnWidgetRegistry_format_column_value,
      VarCharWidgetFactory_format_column_value,
      DateWidgetFactory_format_column_value,
      DateTimeWidgetFactory_format_column_value,
      IntegerWidgetFactory_format_column_value,
      DoubleWidgetFactory_format_column_value,
      BooleanWidgetFactory_format_column_value,
      RelatedEntityWidgetFactory_format_column_value,
      AdministrativeUnitWidgetFactory_format_column_value,
      LookupWidgetFactory_format_column_value,
      MultipleSelectWidgetFactory_format_column_value,
      ColumnWidgetRegistry_format_column_value, code_value, lookups in Hf;
    crunch.
  all: split;
    [first [left; apply only_queries_refl
           |right; eexists; apply only_queries_one]|].
  all: split; [intros Hr Ha; first [congruence|split; [done|congruence]]|].
  all: try done.
  all: by intros d self' [= <- <-].
Qed.


(** X8.  Formatting a value never changes the registry, the database, the
    profile or the clock, and sends at most one query, a single-row lookup
    for the value.  Only the foreign key and administrative unit factories
    send one; every other factory leaves the world and itself as they are.
    The class and the column of a handler never change. *)
Theorem format_column_value_footprint self value w r w' :
  format_column_value self value w = (r, w') ->
  (only_queries w w' [] ∨ ∃ ent, only_queries w w' [QueryFirst ent value])
  ∧ (inst_class self ≠ RelatedEntityWidgetFactory ->
     inst_class self ≠ AdministrativeUnitWidgetFactory ->
     w' = w ∧ ∀ d self', r = Ret (d, self') -> self' = self)
  ∧ (∀ d self', r = Ret (d, self') ->
       inst_class self' = inst_class self ∧ _column self' = _column self).
Proof. apply format_column_value_frame. Qed.

(** ** The cache of the foreign key factory *)





(** ** Widgets built by [create] *)

Lemma populate_calls (items : list (Z * (pyfield * pyfield))) (cbo : widget) :
  let cbo' :=
    foldl (fun cbo '(id, cd_val) =>
             call cbo (addItem (field_val cd_val.1) (VInt id)))
          cbo items in
  w_class cbo' = w_class cbo
  ∧ w_column cbo' = w_column cbo
  ∧ w_parent cbo' = w_parent cbo
  ∧ w_calls cbo'
    = (w_calls cbo
       ++ map (fun x => addItem (field_val x.2.1) (VInt x.1)) items)%list.
Proof.
  cbn zeta. revert cbo.
  induction items as [|[id cd_val] items IH]; intros cbo.
  - by rewrite app_nil_r.
  - cbn [foldl map]. destruct (IH (call cbo (addItem (field_val cd_val.1)
                                              (VInt id))))
      as (-> & -> & -> & ->).
    cbn [call w_class w_column w_parent w_calls fst snd].
    by rewrite <- app_assoc.
Qed.

Lemma create_run c parent w cls :
  registered_factories w !! TYPE_INFO c = Some cls ->
  create c parent w
  = match _create_widget cls c parent w with
    | (Ret wd, w1) =>
        match _widget_configuration cls wd c w1 with
        | (Ret wd', w2) => (Ret (Some wd'), w2)
        | (Raise e, w2) => (Raise e, w2)
        end
    | (Raise e, w1) => (Raise e, w1)
    end.
Proof.
  intros Hf. unfold create. rewrite bind_run, factory_run, Hf, bind_run.
  destruct (_create_widget cls c parent w) as [[wd|e] w1]; [|done].
  rewrite bind_run.
  by destruct (_widget_configuration cls wd c w1) as [[wd'|e] w2].
Qed.

Lemma Lookup_create_widget c parent w :
  _create_widget LookupWidgetFactory c parent w
  = (Ret (foldl (fun cbo '(id, cd_val) =>
                   call cbo (addItem (field_val cd_val.1) (VInt id)))
                {| w_class := QComboBox; w_column := None;
                   w_parent := parent;
                   w_calls := [setObjectName
                                 (object_name LookupWidgetFactory c);
                               addItem (VStr "") VNone] |}
                (map_to_list
                   (foldl (fun lookups r =>
                             <[lk_id r := (lk_value r, lk_code r)]> lookups)
                          ∅ (lookup_table (db w) (value_list c))))),
     with_query w (QueryAll (value_list c))).
Proof. reflexivity. Qed.

(** X10.  A widget returned by [create] is built from the toolkit class of
    the factory registered for the column's type, has the parent given to
    [create], and the first thing set on it is its object name: the prefix
    of the factory, an underscore and the column name. *)
Theorem create_widget_shape c parent w wd w' :
  create c parent w = (Ret (Some wd), w') ->
  ∃ cls,
    registered_factories w !! TYPE_INFO c = Some cls
    ∧ toolkit_class cls = Some (w_class wd)
    ∧ w_parent wd = parent
    ∧ head (w_calls wd)
      = Some (setObjectName (_TYPE_PREFIX cls +:+ "_" +:+ name c)).
Proof.
  intros Hc.
  destruct (registered_factories w !! TYPE_INFO c) as [cls|] eqn:Hf.
  - exists cls. split; [done|]. rewrite (create_run c parent w cls Hf) in Hc.
    destruct cls;
      try (cbn in Hc; crunch; by repeat split).
    { cbn in Hc. injection Hc as <- <-.
      by destruct (min_use_current_date c), (max_use_current_date c). }
    { cbn in Hc. injection Hc as <- <-.
      by destruct (min_use_current_datetime c), (max_use_current_datetime c). }
    rewrite Lookup_create_widget in Hc. cbn in Hc. injection Hc as <- <-.
    match goal with
    | |- context [foldl ?f ?cbo ?items] =>
        destruct (populate_calls items cbo) as (Hcl & _ & Hpa & Hca)
    end.
    cbn zeta in Hcl, Hpa, Hca. rewrite Hcl, Hpa, Hca. by repeat split.
  - unfold create in Hc. by rewrite bind_run, factory_run, Hf in Hc.
Qed.



(** X13.  When the class registered for the column's type is the base
    class itself, [create] raises [NotImplementedError]: a registered type
    does not guarantee a widget. *)
Theorem create_base_class c parent w :
  registered_factories w !! TYPE_INFO c = Some ColumnWidgetRegistry ->
  create c parent w = (Raise NotImplementedError, w).
Proof. intros Hf. by rewrite (create_run c parent w _ Hf). Qed.


(** ** Registration in a formatter *)

Lemma new_instance_class cls c w h w' :
  new_instance cls c w = (Ret h, w') -> inst_class h = cls ∧ _column h = c.
Proof.
  intros Hn.
  destruct cls; cbn in Hn;
    unfold RelatedEntityWidgetFactory_init, LookupWidgetFactory_init,
      AdministrativeUnitWidgetFactory_init, ColumnWidgetRegistry_init,
      query_all in Hn;
    crunch; done.
Qed.

Lemma register_column_cases self name w :
  (fmt_entity self = None ∧ register_column self name w = (Ret (false, self), w))
  ∨ (is_Some (registered_columns self !! name)
     ∧ register_column self name w = (Ret (false, self), w))
  ∨ (∃ ent, fmt_entity self = Some ent
            ∧ registered_columns self !! name = None
            ∧ entity_column ent name = None
            ∧ register_column self name w = (Ret (false, self), w))
  ∨ (∃ ent column,
       fmt_entity self = Some ent
       ∧ registered_columns self !! name = None
       ∧ entity_column ent name = Some column
       ∧ register_column self name w
         = match registered_factories w !! TYPE_INFO column with
           | None => (Raise TypeError, w)
           | Some cls =>
               match new_instance cls column w with
               | (Ret h, w') => (Ret (true, set_handler self name h), w')
               | (Raise e, w') => (Raise e, w')
               end
           end).
Proof.
  unfold register_column, registered_columns.
  destruct (fmt_entity self) as [ent|]; [|by left].
  destruct (decide (is_Some (_registered_columns self !! name))) as [Hs|Hn];
    [by right; left|].
  apply eq_None_not_Some in Hn.
  destruct (entity_column ent name) as [column|] eqn:Hc.
  - right; right; right. exists ent, column. repeat split; try done.
    rewrite bind_run, factory_run.
    destruct (registered_factories w !! TYPE_INFO column) as [cls|]; [|done].
    rewrite bind_run. by destruct (new_instance cls column w) as [[h|e] w'].
  - right; right; left. by exists ent.
Qed.

(** X14.  After [register_column(name)] has returned true, [value_handler]
    answers for the name a handler of the class registered for the type of
    the entity's column of that name, constructed on that column; the
    handlers of all other names and the entity are as before. *)
Theorem register_column_handler self name w self' w' :
  register_column self name w = (Ret (true, self'), w') ->
  ∃ ent column cls h,
    fmt_entity self = Some ent
    ∧ entity_column ent name = Some column
    ∧ registered_factories w !! TYPE_INFO column = Some cls
    ∧ new_instance cls column w = (Ret h, w')
    ∧ inst_class h = cls ∧ _column h = column
    ∧ value_handler self' name = Some h
    ∧ (∀ other, other ≠ name ->
         value_handler self' other = value_handler self other)
    ∧ fmt_entity self' = fmt_entity self.
Proof.
  intros Hr.
  destruct (register_column_cases self name w)
    as [[_ Hc]|[[_ Hc]|[(ent & _ & _ & _ & Hc)|(ent & column & He & _ & Hcol & Hc)]]];
    rewrite Hc in Hr; try discriminate.
  destruct (registered_factories w !! TYPE_INFO column) as [cls|] eqn:Hf;
    [|discriminate].
  destruct (new_instance cls column w) as [[h|e] w1] eqn:Hn; [|discriminate].
  injection Hr as <- <-. exists ent, column, cls, h.
  destruct (new_instance_class _ _ _ _ _ Hn) as [Hcl Hco].
  repeat split; try done.
  - unfold value_handler, set_handler; cbn. apply lookup_insert_eq.
  - intros other Hne. unfold value_handler, set_handler; cbn.
    by apply lookup_insert_ne.
Qed.

(** X15.  [register_column] returns false exactly when the formatter has
    no entity, the name is already registered, or the entity has no column
    of that name; in each of these cases the formatter and the world are
    left as they were. *)
Theorem register_column_False self name w :
  (∀ self' w',
     register_column self name w = (Ret (false, self'), w') ->
     self' = self ∧ w' = w)
  ∧ (register_column self name w = (Ret (false, self), w)
     ↔ fmt_entity self = None
       ∨ is_Some (registered_columns self !! name)
       ∨ ∃ ent, fmt_entity self = Some ent ∧ entity_column ent name = None).
Proof.
  destruct (register_column_cases self name w)
    as [[He Hc]|[[Hs Hc]|[(ent & He & Hn & Hcol & Hc)
                         |(ent & column & He & Hn & Hcol & Hc)]]].
  - rewrite Hc. split; [by intros ?? [= <- <-]|]. split; [by left|done].
  - rewrite Hc. split; [by intros ?? [= <- <-]|].
    split; [by right; left|done].
  - rewrite Hc. split; [by intros ?? [= <- <-]|].
    split; [right; right; by exists ent|done].
  - assert (Hnot : ∀ self' w',
              register_column self name w ≠ (Ret (false, self'), w')).
    { intros self' w'. rewrite Hc.
      destruct (registered_factories w !! TYPE_INFO column) as [cls|];
        [|done].
      by destruct (new_instance cls column w) as [[h|e] w1]. }
    split; [intros self' w' Hr; by destruct (Hnot self' w')|].
    split; [intros Hr; by destruct (Hnot self w)|].
    intros [He'|[Hs|(ent' & He' & Hcol')]].
    + congruence.
    + destruct Hs as [h Hs]. congruence.
    + congruence.
Qed.


(** What one call of [register_column] that returns does to the
    collection. *)
Lemma register_column_grows self name w b self' w' :
  register_column self name w = (Ret (b, self'), w') ->
  fmt_entity self' = fmt_entity self
  ∧ (∀ n h, registered_columns self !! n = Some h ->
            registered_columns self' !! n = Some h)
  ∧ (∀ n, is_Some (registered_columns self' !! n) ->
          is_Some (registered_columns self !! n) ∨ n = name)
  ∧ (b = true -> is_Some (registered_columns self' !! name)).
Proof.
  intros Hr.
  destruct (register_column_cases self name w)
    as [[_ Hc]|[[_ Hc]|[(ent & _ & _ & _ & Hc)
                       |(ent & column & He & Hnone & Hcol & Hc)]]];
    rewrite Hc in Hr;
    try (injection Hr as <- <- <-; repeat split; by auto).
  destruct (registered_factories w !! TYPE_INFO column) as [cls|];
    [|discriminate].
  destruct (new_instance cls column w) as [[h|e] w1]; [|discriminate].
  injection Hr as <- <- <-. unfold registered_columns, set_handler in *; cbn.
  repeat split.
  - intros n h' Hn. rewrite lookup_insert_ne; [done|congruence].
  - intros n. rewrite lookup_insert.
    destruct (decide (name = n)); [by right|by left].
  - intros _. rewrite lookup_insert_eq. by eexists.
Qed.

Lemma register_columns_loop_grows names :
  ∀ self state w b self' w',
    register_columns_loop self names state w = (Ret (b, self'), w') ->
    fmt_entity self' = fmt_entity self
    ∧ (∀ n h, registered_columns self !! n = Some h ->
              registered_columns self' !! n = Some h)
    ∧ (∀ n, is_Some (registered_columns self' !! n) ->
            is_Some (registered_columns self !! n) ∨ n ∈ names)
    ∧ (b = true ->
       (names = [] ∧ state = true)
       ∨ ∃ n, last names = Some n ∧ is_Some (registered_columns self' !! n)).
Proof.
  induction names as [|c rest IH]; intros self state w b self' w' Hl.
  - injection Hl as <- <- <-. repeat split; auto.
  - cbn [register_columns_loop] in Hl. rewrite bind_run in Hl.
    destruct (register_column self c w) as [[[b1 s1]|e] w1] eqn:Hr;
      [|discriminate].
    cbn [fst snd] in Hl.
    destruct (register_column_grows _ _ _ _ _ _ Hr) as (He1 & Hk1 & Hn1 & Hb1).
    destruct (IH _ _ _ _ _ _ Hl) as (He2 & Hk2 & Hn2 & Hb2).
    split; [congruence|]. split; [auto|]. split.
    + intros n Hn. destruct (Hn2 n Hn) as [Hs|Hin].
      * destruct (Hn1 n Hs) as [?| ->]; [by left|right; by left].
      * right. by right.
    + intros Hb. right. destruct (Hb2 Hb) as [[-> ->]|(n & Hlast & Hn)].
      * injection Hl as <- <- <-. exists c. split; [done|]. by apply Hb1.
      * exists n. split; [|done]. rewrite last_cons. by rewrite Hlast.
Qed.

(** X16.  When [register_columns] returns, the entity and every handler
    that was registered before are unchanged, a name registered afterwards
    was registered before or is one of the names given, and the result is
    true only if the last name given is registered afterwards.  On the
    empty list the result is false. *)
Theorem register_columns_grows self names w b self' w' :
  register_columns self names w = (Ret (b, self'), w') ->
  fmt_entity self' = fmt_entity self
  ∧ (∀ n h, registered_columns self !! n = Some h ->
            registered_columns self' !! n = Some h)
  ∧ (∀ n, is_Some (registered_columns self' !! n) ->
          is_Some (registered_columns self !! n) ∨ n ∈ names)
  ∧ (b = true ->
     ∃ n, last names = Some n ∧ is_Some (registered_columns self' !! n)).
Proof.
  intros Hr. unfold register_columns in Hr.
  destruct (register_columns_loop_grows _ _ _ _ _ _ _ Hr)
    as (He & Hk & Hn & Hb).
  repeat split; try done.
  intros Hbt. by destruct (Hb Hbt) as [[_ ?]|?].
Qed.

Lemma register_columns_unbound self names :
  fmt_entity self = None ->
  ∀ state w, register_columns_loop self names state w
             = (Ret (match names with [] => state | _ => false end, self), w).
Proof.
  intros He. induction names as [|c rest IH]; intros state w; [done|].
  cbn [register_columns_loop]. rewrite bind_run.
  unfold register_column at 1. rewrite He. unfold mret, M_ret.
  cbn [fst snd]. rewrite IH. by destruct rest.
Qed.

(** X17.  A formatter created without an entity stays without one when it
    is given no name or an empty one, when there is no current profile,
    or when the profile has no entity of that name.  Such a formatter
    registers nothing: [register_columns] returns false for every list of
    names, without raising and without a change, and
    [column_display_value] returns every value as it is. *)
Theorem EntityValueFormatter_unbound kw_name w :
  default "" kw_name = ""
  ∨ current_profile w = None
  ∨ (∃ p, current_profile w = Some p
          ∧ entity_by_name p (default "" kw_name) = None) ->
  ∃ self,
    EntityValueFormatter_init kw_name None w = (Ret self, w)
    ∧ fmt_entity self = None
    ∧ registered_columns self = ∅
    ∧ (∀ names w2, register_columns self names w2 = (Ret (false, self), w2))
    ∧ (∀ n value w2,
         column_display_value self n value w2 = (Ret (value, self), w2)).
Proof.
  intros Hcase.
  assert (Hinit : ∃ self,
            EntityValueFormatter_init kw_name None w = (Ret self, w)
            ∧ fmt_entity self = None ∧ registered_columns self = ∅).
  { unfold EntityValueFormatter_init. rewrite bind_run. cbn.
    eexists. split; [reflexivity|]. split; [|done]. cbn.
    destruct Hcase as [->|[->|(p & -> & Hp)]].
    - done.
    - by destruct (negb _).
    - destruct (negb _); [done|done]. }
  destruct Hinit as (self & Hi & He & Hreg). exists self.
  split; [done|]. split; [done|]. split; [done|]. split.
  - intros names w2. unfold register_columns.
    rewrite register_columns_unbound by done. by destruct names.
  - intros n value w2. unfold column_display_value.
    unfold registered_columns in Hreg. rewrite Hreg, lookup_empty.
    by destruct (decide _) as [[? ?]|].
Qed.


(** ** Display values through a formatter *)

Lemma column_display_value_run self name value w h :
  registered_columns self !! name = Some h ->
  column_display_value self name value w
  = match format_column_value h value w with
    | (Ret (s, h'), w') => (Ret (s, set_handler self name h'), w')
    | (Raise e, w') => (Raise e, w')
    end.
Proof.
  unfold column_display_value, registered_columns. intros Hh. rewrite Hh.
  destruct (decide _) as [|Hn]; [|exfalso; apply Hn; by eexists].
  rewrite bind_run.
  by destruct (format_column_value h value w) as [[[s h']|e] w'].
Qed.

(** X18.  The cache of a registered foreign key handler lives on in the
    formatter.  When [column_display_value] is asked for an id the handler
    has not cached and the database has a row for it, it sends one
    single-row lookup and returns the display value of the row; asked again
    for the same id, the formatter it left returns the same display value
    without a query. *)
Theorem column_display_value_caches self name c cache p id w rec :
  registered_columns self !! name
  = Some {| inst_class := RelatedEntityWidgetFactory; _column := c;
            inst_attrs := RelatedAttrs cache p |} ->
  cache !! id = None ->
  List.find (fun r => Z.eqb (p_id r) id) (parent_table (db w) p) = Some rec ->
  ∃ self1,
    column_display_value self name (VInt id) w
    = (Ret (process_display c rec, self1),
       with_query w (QueryFirst p (VInt id)))
    ∧ ∀ w2, column_display_value self1 name (VInt id) w2
            = (Ret (process_display c rec, self1), w2).
Proof.
  intros Hh Hmiss Hfound.
  set (h1 := {| inst_class := RelatedEntityWidgetFactory; _column := c;
                inst_attrs := RelatedAttrs (<[id := rec]> cache) p |}).
  exists (set_handler self name h1). split.
  - rewrite (column_display_value_run _ _ _ _ _ Hh).
    rewrite Related_miss by done. by rewrite Hfound.
  - intros w2.
    rewrite (column_display_value_run _ name _ _ h1).
    + unfold h1. rewrite Related_hit with (rec := rec)
        by apply lookup_insert_eq.
      unfold set_handler; cbn. by rewrite insert_insert_eq.
    + unfold registered_columns, set_handler; cbn. apply lookup_insert_eq.
Qed.

(** X19.  [column_display_value] never changes what is registered: when it
    returns, the entity and the set of registered names are the same, the
    handlers of all other names are untouched, and the handler of the name
    itself still has its class and column. *)
Theorem column_display_value_keeps_registration self name value w d self' w' :
  column_display_value self name value w = (Ret (d, self'), w') ->
  fmt_entity self' = fmt_entity self
  ∧ dom (registered_columns self') = dom (registered_columns self)
  ∧ (∀ other, other ≠ name ->
       registered_columns self' !! other = registered_columns self !! other)
  ∧ (∀ h, registered_columns self !! name = Some h ->
       ∃ h', registered_columns self' !! name = Some h'
             ∧ inst_class h' = inst_class h ∧ _column h' = _column h).
Proof.
  intros Hd.
  destruct (registered_columns self !! name) as [h|] eqn:Hh.
  - rewrite (column_display_value_run _ _ _ _ _ Hh) in Hd.
    destruct (format_column_value h value w) as [[[s h']|e] w1] eqn:Hf;
      [|discriminate].
    injection Hd as <- <- <-.
    destruct (format_column_value_frame _ _ _ _ _ Hf) as (_ & _ & Hkeep).
    destruct (Hkeep s h' eq_refl) as [Hcl Hco].
    unfold registered_columns, set_handler in *; cbn. repeat split.
    + apply set_eq. intros n. rewrite dom_insert, elem_of_union,
        elem_of_singleton, !elem_of_dom.
      split; [intros [->|?]; [by eexists|done]|by right].
    + intros other Hne. by apply lookup_insert_ne.
    + intros h0 [= <-]. exists h'. by rewrite lookup_insert_eq.
  - unfold column_display_value in Hd. unfold registered_columns in Hh.
    rewrite Hh in Hd. destruct (decide _) as [[? ?]|]; [discriminate|].
    injection Hd as <- <- <-. repeat split; try done.
Qed.


(** ** Display formats *)

Lemma all_strings_None (items : list pyfield) :
  None ∈ items -> all_strings items = None.
Proof.
  induction items as [|[s|] items IH]; intros Hin.
  - by apply elem_of_nil in Hin.
  - apply elem_of_cons in Hin as [?|Hin]; [done|].
    cbn. by rewrite IH.
  - done.
Qed.

(** X20.  The multiple select factory needs a string in every row: when
    the [value] of one of the rows is [None], formatting raises
    [TypeError].  A non-empty string in place of the list raises
    [AttributeError], the empty string is formatted like the empty list. *)
Theorem MultipleSelect_errors (c : column) (a : attrs) (w : world) :
  let self := {| inst_class := MultipleSelectWidgetFactory; _column := c;
                 inst_attrs := a |} in
  (∀ l r, r ∈ l -> lk_value r = None ->
     format_column_value self (VList l) w = (Raise TypeError, w))
  ∧ (∀ s, s ≠ "" ->
       format_column_value self (VStr s) w = (Raise AttributeError, w))
  ∧ format_column_value self (VStr "") w = (Ret (VStr "", self), w).
Proof.
  intros self. split; [|split].
  - intros l r Hin Hv. subst self.
    unfold format_column_value; cbn [inst_class].
    unfold MultipleSelectWidgetFactory_format_column_value.
    rewrite bind_run. cbn [lift py_len].
    destruct l as [|r0 l]; [by apply elem_of_nil in Hin|].
    cbn [length Nat.eqb]. rewrite bind_run. unfold lift, py_join.
    rewrite all_strings_None; [done|].
    rewrite <- Hv. by apply (list_elem_of_fmap_2 lk_value).
  - intros s Hs. by destruct s.
  - done.
Qed.

(** X21.  The display value of a cached lookup is its value followed by
    its code in parentheses when the code is a non-empty string; with an
    empty or missing code it is the value alone, which is [None] when the
    row has no value. *)
Theorem Lookup_display (c : column) (lks : gmap Z (pyfield * pyfield))
    (id : Z) (w : world) :
  let self := {| inst_class := LookupWidgetFactory; _column := c;
                 inst_attrs := LookupAttrs lks |} in
  (∀ v cd, cd ≠ "" -> lks !! id = Some (Some v, Some cd) ->
     format_column_value self (VInt id) w
     = (Ret (VStr (v +:+ " (" +:+ cd +:+ ")"), self), w))
  ∧ (∀ v code, code = None ∨ code = Some "" -> lks !! id = Some (v, code) ->
       format_column_value self (VInt id) w = (Ret (field_val v, self), w)).
Proof.
  intros self. split.
  - intros v cd Hcd Hl. subst self. rewrite Lookup_format.
    unfold pyfield in *. rewrite Hl.
    unfold name_with_code, field_truthy. cbn.
    by destruct cd.
  - intros v code Hcode Hl. subst self. rewrite Lookup_format.
    unfold pyfield in *. rewrite Hl.
    by destruct Hcode as [->| ->].
Qed.

(** ** Creation of a formatter *)

(** X22.  A formatter created with an entity is bound to it whatever the
    name and the profile are; one created with a non-empty name only is
    bound to the entity the current profile has under that name.  Either
    way it starts with no registered column and asks nothing of the
    database. *)
Theorem EntityValueFormatter_bound kw_name w :
  (∀ e, EntityValueFormatter_init kw_name (Some e) w
        = (Ret {| entity_name := default "" kw_name; fmt_entity := Some e;
                  _registered_columns := ∅ |}, w))
  ∧ (∀ n p, kw_name = Some n -> n ≠ "" -> current_profile w = Some p ->
       EntityValueFormatter_init kw_name None w
       = (Ret {| entity_name := n; fmt_entity := entity_by_name p n;
                 _registered_columns := ∅ |}, w)).
Proof.
  split.
  - intros e. reflexivity.
  - intros n p -> Hn Hp. unfold EntityValueFormatter_init.
    rewrite bind_run. cbn. rewrite Hp.
    destruct (String.eqb n "") eqn:Heq; [|done].
    by apply String.eqb_eq in Heq.
Qed.


End More.

(** * Concrete runs

    The properties above at the sample configuration. *)

Section Runs.
Import Sample.
#[local] Existing Instance externals.

(** C1, as stated, fails: the text factory, which keeps the default of the
    base class, formats [None] to "None", and the multiple select factory
    raises [TypeError] on [None]. *)
Lemma format_column_value_None_not_always_empty :
  format_column_value (plain TextWidgetFactory notes) VNone w0
  = (Ret (VStr "None", plain TextWidgetFactory notes), w0)
  ∧ match new_instance MultipleSelectWidgetFactory languages w0 with
    | (Ret self, w) =>
        format_column_value self VNone w = (Raise TypeError, w)
    | (Raise _, _) => False
    end.
Proof. split; reflexivity. Qed.

(** C2, as stated, fails for the lookup factory: built while the value
    list held one row, it is asked for the id of a row added since.  The
    row is in the database, yet the factory sends no query, leaves its
    cache as it was and answers the empty string. *)
Lemma LookupWidgetFactory_never_queries :
  match new_instance LookupWidgetFactory gender w0 with
  | (Ret self, _) =>
      first_by_id lk_id (lookup_table (db w1) "check_gender") (VInt 2)
      = Some female
      ∧ format_column_value self (VInt 2) w1 = (Ret (VStr "", self), w1)
  | (Raise _, _) => False
  end.
Proof. split; reflexivity. Qed.

Lemma relational_format_column_value_witness :
  (∅ : gmap Z parent_row) !! 7 = None
  ∧ List.find (fun r => Z.eqb (p_id r) 7) (parent_table (db w0) "household")
    = Some smiths
  ∧ format_column_value household_handler (VInt 7) w0
    = (Ret (VStr "Smith 4", household_handler_7),
       with_query w0 (QueryFirst "household" (VInt 7)))
  ∧ ∀ w2, format_column_value household_handler_7 (VInt 7) w2
          = (Ret (VStr "Smith 4", household_handler_7), w2).
Proof.
  destruct (relational_format_column_value household 7 w0) as [Hfk _].
  destruct (Hfk ∅ "household") as (_ & Hmiss & _).
  destruct (Hmiss smiths) as (Hfirst & _ & Hsecond);
    [reflexivity|reflexivity|].
  split; [reflexivity|]. split; [reflexivity|]. split.
  - exact Hfirst.
  - exact Hsecond.
Defined.

Lemma register_column_twice_witness :
  register_column formatter "first_name" w0 = (Ret (true, formatter_1), w0)
  ∧ ∃ h, registered_columns formatter_1 !! "first_name" = Some h
         ∧ ∀ w2, register_column formatter_1 "first_name" w2
                 = (Ret (false, formatter_1), w2).
Proof.
  split; [reflexivity|].
  apply (register_column_twice formatter "first_name" w0 formatter_1 w0).
  reflexivity.
Defined.

Lemma create_unregistered_witness :
  registered_factories w0 !! TYPE_INFO geom = None
  ∧ create geom None w0 = (Ret None, w0).
Proof.
  split; [reflexivity|]. apply create_unregistered. reflexivity.
Defined.

Lemma register_last_wins_witness :
  @COLUMN_TYPE_INFO shared_tag_externals DoubleWidgetFactory
  = @COLUMN_TYPE_INFO shared_tag_externals PercentWidgetFactory
  ∧ ∃ w',
      (_ ← @register shared_tag_externals DoubleWidgetFactory;
       _ ← @register shared_tag_externals PercentWidgetFactory;
       factory (@COLUMN_TYPE_INFO shared_tag_externals DoubleWidgetFactory))
        (world_with [male])
      = (Ret (Some PercentWidgetFactory), w').
Proof.
  split; [reflexivity|].
  apply (proj2 (@register_last_wins shared_tag_externals)). reflexivity.
Defined.

Lemma MultipleSelect_join_witness :
  map lk_value [row_A; row_B] = map Some ["A"; "B"]
  ∧ format_column_value languages_handler (VList [row_A; row_B]) w0
    = (Ret (VStr "A; B", languages_handler), w0).
Proof.
  split; [reflexivity|].
  apply (proj1 (MultipleSelect_join languages
                  (LookupAttrs (<[1 := (Some "Male", Some "M")]> ∅)) w0)
           [row_A; row_B] ["A"; "B"]).
  reflexivity.
Defined.



Lemma register_column_unregistered_type_witness :
  fmt_entity formatter = Some person
  ∧ registered_columns formatter !! "geom" = None
  ∧ entity_column person "geom" = Some geom
  ∧ registered_factories w0 !! TYPE_INFO geom = None
  ∧ register_column formatter "geom" w0 = (Raise TypeError, w0).
Proof.
  repeat (split; [reflexivity|]).
  apply (register_column_unregistered_type formatter "geom" w0 person geom);
    reflexivity.
Defined.

End Runs.

(** * Further concrete runs *)

Section MoreRuns.
Import Sample.
#[local] Existing Instance externals.

Lemma sample_tags_distinct : NoDup (map COLUMN_TYPE_INFO module_factories).
Proof.
  repeat (apply NoDup_cons; split;
          [rewrite ?elem_of_cons, elem_of_nil; cbn; intuition discriminate|]).
  apply NoDup_nil_2.
Defined.

Lemma register_all_distinct_tags_witness :
  NoDup (map COLUMN_TYPE_INFO module_factories)
  ∧ ∃ w',
      register_all module_factories (world_with [male]) = (Ret tt, w')
      ∧ (∀ cls, cls ∈ module_factories ->
           factory (COLUMN_TYPE_INFO cls) w' = (Ret (Some cls), w'))
      ∧ (∀ tag, tag ∉ map COLUMN_TYPE_INFO module_factories ->
           factory tag w'
           = (Ret (registered_factories (world_with [male]) !! tag), w')).
Proof.
  split; [exact sample_tags_distinct|].
  exact (register_all_distinct_tags module_factories (world_with [male])
           sample_tags_distinct).
Defined.

Lemma constructors_preload_witness :
  entity_relation_parent household = Some "household"
  ∧ ∃ cache,
      new_instance RelatedEntityWidgetFactory household w0
      = (Ret {| inst_class := RelatedEntityWidgetFactory;
                _column := household;
                inst_attrs := RelatedAttrs cache "household" |},
         with_query w0 (QueryAll "household"))
      ∧ ∀ id, cache !! id
              = last_with_id p_id id (parent_table (db w0) "household").
Proof.
  split; [reflexivity|].
  exact (proj1 (constructors_preload household w0) "household" eq_refl).
Defined.

Lemma Related_preloaded_witness :
  entity_relation_parent household = Some "household"
  ∧ new_instance RelatedEntityWidgetFactory household w0
    = (Ret household_handler_7, w0_households)
  ∧ smiths ∈ parent_table (db w0) "household"
  ∧ ∃ r',
      last_with_id p_id (p_id smiths) (parent_table (db w0) "household")
      = Some r'
      ∧ ∀ w2, format_column_value household_handler_7 (VInt (p_id smiths)) w2
              = (Ret (process_display household r', household_handler_7), w2).
Proof.
  assert (Hin : smiths ∈ parent_table (db w0) "household") by (by left).
  split; [reflexivity|]. split; [reflexivity|]. split; [exact Hin|].
  exact (Related_preloaded household w0 "household" household_handler_7
           w0_households smiths eq_refl eq_refl Hin).
Defined.

Lemma Lookup_preloaded_witness :
  new_instance LookupWidgetFactory gender w0
  = (Ret gender_handler, with_query w0 (QueryAll "check_gender"))
  ∧ (∀ w2, format_column_value gender_handler (VInt 2) w2
           = (Ret (VStr "", gender_handler), w2)).
Proof.
  split; [reflexivity|].
  destruct (Lookup_preloaded gender w0 gender_handler
              (with_query w0 (QueryAll "check_gender")) eq_refl)
    as [_ Habsent].
  apply Habsent. intros Hin. apply list_elem_of_In in Hin.
  vm_compute in Hin. intuition discriminate.
Defined.

Lemma AdministrativeUnit_preloaded_witness :
  new_instance AdministrativeUnitWidgetFactory ward w0
  = (Ret ward_handler, with_query w0 (QueryAll "admin_spatial_unit_set"))
  ∧ district ∈ aus_table (db w0) (administrative_spatial_unit ward)
  ∧ ∃ r',
      last_with_id aus_id (aus_id district)
        (aus_table (db w0) (administrative_spatial_unit ward)) = Some r'
      ∧ ∀ w2, format_column_value ward_handler (VInt (aus_id district)) w2
              = (Ret (name_with_code (aus_name r') (aus_code r'),
                      ward_handler), w2).
Proof.
  assert (Hin : district
                ∈ aus_table (db w0) (administrative_spatial_unit ward))
    by (by left).
  split; [reflexivity|]. split; [exact Hin|].
  exact (AdministrativeUnit_preloaded ward w0 ward_handler
           (with_query w0 (QueryAll "admin_spatial_unit_set")) district
           eq_refl Hin).
Defined.

Lemma format_column_value_footprint_witness :
  format_column_value household_handler (VInt 7) w0
  = (Ret (VStr "Smith 4", household_handler_7),
     with_query w0 (QueryFirst "household" (VInt 7)))
  ∧ (only_queries w0 (with_query w0 (QueryFirst "household" (VInt 7))) []
     ∨ ∃ ent, only_queries w0
                (with_query w0 (QueryFirst "household" (VInt 7)))
                [QueryFirst ent (VInt 7)]).
Proof.
  split; [reflexivity|].
  exact (proj1 (format_column_value_footprint household_handler (VInt 7) w0
                  _ _ eq_refl)).
Defined.


Lemma create_widget_shape_witness :
  create first_name (Some 5%nat) w0 = (Ret (Some first_name_widget), w0)
  ∧ ∃ cls,
      registered_factories w0 !! TYPE_INFO first_name = Some cls
      ∧ toolkit_class cls = Some (w_class first_name_widget)
      ∧ w_parent first_name_widget = Some 5%nat
      ∧ head (w_calls first_name_widget)
        = Some (setObjectName (_TYPE_PREFIX cls +:+ "_" +:+ name first_name)).
Proof.
  split; [reflexivity|].
  exact (create_widget_shape first_name (Some 5%nat) w0 first_name_widget w0
           eq_refl).
Defined.



Lemma create_base_class_witness :
  registered_factories w_base !! TYPE_INFO untyped = Some ColumnWidgetRegistry
  ∧ create untyped None w_base = (Raise NotImplementedError, w_base).
Proof.
  split; [reflexivity|].
  exact (create_base_class untyped None w_base eq_refl).
Defined.

Lemma register_column_handler_witness :
  register_column formatter "first_name" w0 = (Ret (true, formatter_1), w0)
  ∧ ∃ ent column cls h,
      fmt_entity formatter = Some ent
      ∧ entity_column ent "first_name" = Some column
      ∧ registered_factories w0 !! TYPE_INFO column = Some cls
      ∧ new_instance cls column w0 = (Ret h, w0)
      ∧ inst_class h = cls ∧ _column h = column
      ∧ value_handler formatter_1 "first_name" = Some h
      ∧ (∀ other, other ≠ "first_name" ->
           value_handler formatter_1 other = value_handler formatter other)
      ∧ fmt_entity formatter_1 = fmt_entity formatter.
Proof.
  split; [reflexivity|].
  exact (register_column_handler formatter "first_name" w0 formatter_1 w0
           eq_refl).
Defined.

Lemma register_column_False_witness :
  register_column formatter_1 "first_name" w0 = (Ret (false, formatter_1), w0)
  ∧ (fmt_entity formatter_1 = None
     ∨ is_Some (registered_columns formatter_1 !! "first_name")
     ∨ ∃ ent, fmt_entity formatter_1 = Some ent
              ∧ entity_column ent "first_name" = None).
Proof.
  split; [reflexivity|].
  exact (proj1 (proj2 (register_column_False formatter_1 "first_name" w0))
           eq_refl).
Defined.

Lemma register_columns_grows_witness :
  register_columns formatter ["first_name"; "household"; "first_name"] w0
  = (Ret (false, formatter_2), w0_households)
  ∧ fmt_entity formatter_2 = fmt_entity formatter
  ∧ (∀ n h, registered_columns formatter !! n = Some h ->
            registered_columns formatter_2 !! n = Some h)
  ∧ (∀ n, is_Some (registered_columns formatter_2 !! n) ->
          is_Some (registered_columns formatter !! n)
          ∨ n ∈ ["first_name"; "household"; "first_name"])
  ∧ (false = true ->
     ∃ n, last ["first_name"; "household"; "first_name"] = Some n
          ∧ is_Some (registered_columns formatter_2 !! n)).
Proof.
  split; [reflexivity|].
  exact (register_columns_grows formatter
           ["first_name"; "household"; "first_name"] w0 false formatter_2
           w0_households eq_refl).
Defined.

Lemma EntityValueFormatter_unbound_witness :
  default "" (None : option string) = ""
  ∧ ∃ self,
      EntityValueFormatter_init None None w0 = (Ret self, w0)
      ∧ fmt_entity self = None
      ∧ registered_columns self = ∅
      ∧ (∀ names w2,
           register_columns self names w2 = (Ret (false, self), w2))
      ∧ (∀ n value w2,
           column_display_value self n value w2 = (Ret (value, self), w2)).
Proof.
  split; [reflexivity|].
  exact (EntityValueFormatter_unbound None w0 (or_introl eq_refl)).
Defined.

Lemma column_display_value_caches_witness :
  registered_columns formatter_h !! "household" = Some household_handler
  ∧ (∅ : gmap Z parent_row) !! 7 = None
  ∧ List.find (fun r => Z.eqb (p_id r) 7) (parent_table (db w0) "household")
    = Some smiths
  ∧ ∃ self1,
      column_display_value formatter_h "household" (VInt 7) w0
      = (Ret (process_display household smiths, self1),
         with_query w0 (QueryFirst "household" (VInt 7)))
      ∧ ∀ w2, column_display_value self1 "household" (VInt 7) w2
              = (Ret (process_display household smiths, self1), w2).
Proof.
  split; [reflexivity|]. split; [reflexivity|]. split; [reflexivity|].
  exact (column_display_value_caches formatter_h "household" household ∅
           "household" 7 w0 smiths eq_refl eq_refl eq_refl).
Defined.

Lemma column_display_value_keeps_registration_witness :
  column_display_value formatter_h "household" (VInt 7) w0
  = (Ret (VStr "Smith 4", formatter_h7),
     with_query w0 (QueryFirst "household" (VInt 7)))
  ∧ fmt_entity formatter_h7 = fmt_entity formatter_h
  ∧ dom (registered_columns formatter_h7) = dom (registered_columns formatter_h)
  ∧ (∀ other, other ≠ "household" ->
       registered_columns formatter_h7 !! other
       = registered_columns formatter_h !! other)
  ∧ (∀ h, registered_columns formatter_h !! "household" = Some h ->
       ∃ h', registered_columns formatter_h7 !! "household" = Some h'
             ∧ inst_class h' = inst_class h ∧ _column h' = _column h).
Proof.
  split; [reflexivity|].
  exact (column_display_value_keeps_registration formatter_h "household"
           (VInt 7) w0 (VStr "Smith 4") formatter_h7
           (with_query w0 (QueryFirst "household" (VInt 7))) eq_refl).
Defined.

Lemma MultipleSelect_errors_witness :
  row_blank ∈ [row_A; row_blank]
  ∧ lk_value row_blank = None
  ∧ format_column_value languages_handler (VList [row_A; row_blank]) w0
    = (Raise TypeError, w0).
Proof.
  assert (Hin : row_blank ∈ [row_A; row_blank]) by (right; left).
  split; [exact Hin|]. split; [reflexivity|].
  exact (proj1 (MultipleSelect_errors languages
                  (LookupAttrs (<[1 := (Some "Male", Some "M")]> ∅)) w0)
           [row_A; row_blank] row_blank Hin eq_refl).
Defined.

Lemma Lookup_display_witness :
  "M" ≠ ""
  ∧ (<[1 := (Some "Male", Some "M")]> ∅ : gmap Z (pyfield * pyfield)) !! 1
    = Some (Some "Male", Some "M")
  ∧ format_column_value gender_handler (VInt 1) w0
    = (Ret (VStr "Male (M)", gender_handler), w0).
Proof.
  assert (Hne : "M" ≠ "") by discriminate.
  split; [exact Hne|]. split; [reflexivity|].
  exact (proj1 (Lookup_display gender
                  (<[1 := (Some "Male", Some "M")]> ∅) 1 w0)
           "Male" "M" Hne eq_refl).
Defined.

Lemma EntityValueFormatter_bound_witness :
  "person" ≠ ""
  ∧ current_profile w0 = Some {| prf_entities := <["person" := person]> ∅ |}
  ∧ EntityValueFormatter_init (Some "person") None w0
    = (Ret {| entity_name := "person";
              fmt_entity :=
                entity_by_name {| prf_entities := <["person" := person]> ∅ |}
                  "person";
              _registered_columns := ∅ |}, w0).
Proof.
  assert (Hne : "person" ≠ "") by discriminate.
  assert (Hp : current_profile w0
               = Some {| prf_entities := <["person" := person]> ∅ |})
    by reflexivity.
  split; [exact Hne|]. split; [exact Hp|].
  apply (proj2 (EntityValueFormatter_bound (Some "person") w0) "person"
           {| prf_entities := <["person" := person]> ∅ |} eq_refl Hne Hp).
Defined.


End MoreRuns.
